(** * The local marketplace operator backend

    A shallow embedding of [ads/opctl/backend/marketplace/local_marketplace.py]
    (class [LocalMarketplaceOperatorBackend]) and the properties of its
    deployment flow: command construction, the release existence probe, the
    pod readiness poller, the license agreement gate, and the [run] entry
    point.

    Python code that talks to the outside (subprocesses, the Kubernetes and
    marketplace clients, the terminal, the file system, the clock) is written
    in a small monad [M] that threads a [World], may raise a Python exception,
    and logs every outward call as an [event].  The answers of the outside
    are given by an environment record [Env].  Console output ([print]) is
    not part of the model.  Time is the clock of the world, in whole seconds;
    [time.time] reads it and [time.sleep] advances it, and no other call
    takes time.  A loop that Python leaves only by [return], [break] or an
    exception runs on fuel, and [Diverge] is the result of running out. *)

From Stdlib Require Import String Ascii List ZArith Bool Lia PeanoNat DecimalString.
Import ListNotations.

Local Open Scope string_scope.
Local Open Scope list_scope.

(** ** Python values the code handles *)

(** The exceptions that can travel through the code.  [Exception_] is a bare
    [Exception] instance, as produced by [raise Exception]. *)
Inductive exn : Type :=
| Exception_
| RuntimeError (msg : string)
| TypeError (msg : string)
| KeyError (key : string)
| IndexError (msg : string)
| EmptyDataError (msg : string)
| ExternalError (cls : string).

Definition exn_class (e : exn) : string :=
  match e with
  | Exception_ => "Exception"
  | RuntimeError _ => "RuntimeError"
  | TypeError _ => "TypeError"
  | KeyError _ => "KeyError"
  | IndexError _ => "IndexError"
  | EmptyDataError _ => "EmptyDataError"
  | ExternalError cls => cls
  end.

(** [subprocess.CompletedProcess]: the exit status and the captured output. *)
Record CompletedProcess : Type := mkProc {
  returncode : Z;
  stdout : string
}.

(** A cell of a [pandas] column, and a frame as its columns in order. *)
Inductive cell : Type :=
| CStr (s : string)
| CInt (z : Z)
| CNaN.

Record DataFrame : Type := mkFrame {
  df_columns : list (string * list cell)
}.

(** [kubernetes] pod objects, as far as the poller reads them:
    [pod.status.conditions] is an optional list of typed conditions. *)
Record V1PodCondition : Type := mkCond {
  cond_type : string;
  cond_status : string
}.

Record V1Pod : Type := mkPod {
  pod_conditions : option (list V1PodCondition)
}.

(** Marketplace models. *)
Record AgreementSummary : Type := mkSummary {
  as_id : string;
  as_author : string
}.

Record Agreement : Type := mkAgreement {
  ag_content_url : string;
  ag_prompt : string;
  ag_signature : string
}.

Record CreateAcceptedAgreementDetails : Type := mkAccept {
  caa_agreement_id : string;
  caa_listing_id : string;
  caa_compartment_id : string;
  caa_signature : string;
  caa_package_version : string
}.

(** Modelled from the spec: the classes [MarketplaceListingDetails] and
    [HelmMarketplaceListingDetails] of [marketplace_type], which the backend
    imports; their declarations are not among the sources.  The fields are
    those of the spec's ListingDetails that the backend reads: the listing,
    compartment and version of every listing, and the override values (held
    here as their YAML text), the release name and the namespace of a Helm
    listing. *)
Record MarketplaceListingDetails : Type := mkListing {
  listing_id : string;
  compartment_id : string;
  version : string
}.

Record HelmFields : Type := mkHelm {
  helm_values : string;
  helm_app_name : string;
  namespace : string
}.

Inductive ListingDetails : Type :=
| PlainListing (base : MarketplaceListingDetails)
| HelmListing (base : MarketplaceListingDetails) (helm : HelmFields).

Definition listing_base (ld : ListingDetails) : MarketplaceListingDetails :=
  match ld with
  | PlainListing b => b
  | HelmListing b _ => b
  end.

(** ** Outward calls

    Each call is logged with its arguments; a subprocess and a terminal
    confirmation are logged together with what came back. *)

Inductive event : Type :=
| ESetEnv (key value : string)
| ESubprocess (argv : list string) (result : exn + CompletedProcess)
| EWriteFile (path content : string)
| ERemoveFile (path : string)
| ELoadKubeConfig
| EListPods (ns selector : string)
| ESleep (seconds : Z)
| EGetListing (lid : string)
| EListAcceptedAgreements (lid cid : string)
| EListAgreements (lid ver : string)
| EGetAgreement (lid ver aid : string)
| EOpenBrowser (url : string)
| EConfirm (prompt : string) (answer : bool)
| ECreateAcceptedAgreement (details : CreateAcceptedAgreementDetails)
| ELoadOperator (uri : string).

(** What the outside answers: the subprocesses, the table parser of
    [pandas], the Kubernetes client, the terminal, [tempfile], the
    marketplace service, the operator's [get_listing_details], the operator
    loader, and the two runtime type constants of [marketplace_runtime]
    ([MarketplacePythonRuntime.type] and the default of the runtime
    configuration), none of which is among the sources.  A subprocess, the
    parser, the loading of the kube configuration, a pod listing and the
    operator loader may raise; the marketplace service, the terminal and
    [get_listing_details] are taken to answer.  Pod listings and terminal
    answers may change from one call to the next, so they are indexed by
    the number of earlier calls of the same kind. *)
Record Env : Type := mkEnv {
  subprocess_result : list string -> exn + CompletedProcess;
  pd_read_csv : string -> exn + DataFrame;
  kube_config : option exn;
  pod_listing : nat -> string -> string -> exn + list V1Pod;
  terminal_answer : nat -> string -> bool;
  tempdir_name : string;
  accepted_agreement_ids_of : string -> string -> list string;
  agreement_summaries_of : string -> string -> list AgreementSummary;
  agreement_of : string -> string -> string -> Agreement;
  listing_details_of : ListingDetails;
  operator_loader : string -> option exn;
  python_runtime_type : string;
  default_runtime_type : string
}.

(** The part of the world the code can change or observe changing. *)
Record World : Type := mkWorld {
  clock : Z;
  files : list (string * string);
  environ : list (string * string);
  polls : nat;
  confirms : nat
}.

(** ** The monad *)

Inductive Result (A : Type) : Type :=
| Ok (a : A)
| Raise (e : exn)
| Diverge.
Arguments Ok {A} a.
Arguments Raise {A} e.
Arguments Diverge {A}.

Record Outcome (A : Type) : Type := mkOut {
  res : Result A;
  world : World;
  log : list event
}.
Arguments mkOut {A} res world log.
Arguments res {A} o.
Arguments world {A} o.
Arguments log {A} o.

Definition M (A : Type) : Type := World -> Outcome A.

Definition ret {A} (a : A) : M A := fun w => mkOut (Ok a) w [].

Definition bind {A B} (m : M A) (f : A -> M B) : M B :=
  fun w =>
    let o := m w in
    match res o with
    | Ok a => let o' := f a (world o) in
              mkOut (res o') (world o') (log o ++ log o')
    | Raise e => mkOut (Raise e) (world o) (log o)
    | Diverge => mkOut Diverge (world o) (log o)
    end.

Notation "x <- m ;; k" := (bind m (fun x => k))
  (at level 61, m at next level, right associativity).
Notation "m ;; k" := (bind m (fun _ => k))
  (at level 61, right associativity).

Definition raise {A} (e : exn) : M A := fun w => mkOut (Raise e) w [].
Definition diverge {A} : M A := fun w => mkOut Diverge w [].
Definition emit (e : event) : M unit := fun w => mkOut (Ok tt) w [e].

Definition lift_sum {A} (r : exn + A) : M A :=
  match r with
  | inl e => raise e
  | inr a => ret a
  end.

(** ** Small pieces of the Python library *)

Definition assoc_set (k v : string) (d : list (string * string))
  : list (string * string) :=
  (k, v) :: filter (fun kv => negb (String.eqb (fst kv) k)) d.

Fixpoint assoc_get {V} (k : string) (d : list (string * V)) : option V :=
  match d with
  | [] => None
  | (k', v) :: d' => if String.eqb k' k then Some v else assoc_get k d'
  end.

Definition assoc_del {V} (k : string) (d : list (string * V))
  : list (string * V) :=
  filter (fun kv => negb (String.eqb (fst kv) k)) d.

Definition str_mem (s : string) (l : list string) : bool :=
  existsb (String.eqb s) l.

(** [os.path.join(a, b)] for a relative [b]. *)
Fixpoint ends_with_slash (a : string) : bool :=
  match a with
  | EmptyString => false
  | String c EmptyString => Ascii.eqb c "/"
  | String _ r => ends_with_slash r
  end.

Definition os_path_join (a b : string) : string :=
  match a with
  | EmptyString => b
  | _ => if ends_with_slash a then (a ++ b)%string else (a ++ "/" ++ b)%string
  end.

(** [re.sub("<.*?>", "", prompt)]: every stretch from a [<] to the nearest
    following [>] on the same line is removed.  [pending] holds the text read
    since an unmatched [<], most recent character first. *)
Definition newline : ascii := Ascii.ascii_of_nat 10.

Fixpoint rev_onto (acc : list ascii) (s : string) : string :=
  match acc with
  | [] => s
  | c :: acc' => rev_onto acc' (String c s)
  end.

Fixpoint cleanse_from (pending : option (list ascii)) (prompt : string) : string :=
  match prompt with
  | EmptyString =>
      match pending with
      | None => EmptyString
      | Some buf => rev_onto buf EmptyString
      end
  | String c rest =>
      match pending with
      | None =>
          if Ascii.eqb c "<" then cleanse_from (Some [c]) rest
          else String c (cleanse_from None rest)
      | Some buf =>
          if Ascii.eqb c ">" then cleanse_from None rest
          else if Ascii.eqb c newline
               then rev_onto (c :: buf) (cleanse_from None rest)
               else cleanse_from (Some (c :: buf)) rest
      end
  end.

Definition cleanse (prompt : string) : string := cleanse_from None prompt.

(** [f"{exit_code}"] for an [int] or [None]. *)
Definition str_of_exit_code (c : option Z) : string :=
  match c with
  | None => "None"
  | Some z => DecimalString.NilZero.string_of_int (Z.to_int z)
  end.

(** [str(d.keys())] for string keys. *)
Definition str_of_keys (keys : list string) : string :=
  ("dict_keys([" ++ String.concat ", " (map (fun k => "'" ++ k ++ "'") keys) ++ "])")%string.

(** ** Frames *)

Definition cell_eq_str (name : string) (c : cell) : bool :=
  match c with
  | CStr s => String.eqb s name
  | CInt _ => false
  | CNaN => false
  end.

(** [series == name], element by element, and [Series.any()]. *)
Definition series_eq (col : list cell) (name : string) : list bool :=
  map (cell_eq_str name) col.

Definition series_any (s : list bool) : bool := existsb (fun b => b) s.

(** [frame[column]]. *)
Definition frame_getitem (df : DataFrame) (column : string) : M (list cell) :=
  match assoc_get column (df_columns df) with
  | Some col => ret col
  | None => raise (KeyError column)
  end.

(** ** World updates *)

Definition with_clock (t : Z) (w : World) : World :=
  mkWorld t (files w) (environ w) (polls w) (confirms w).
Definition with_files (fs : list (string * string)) (w : World) : World :=
  mkWorld (clock w) fs (environ w) (polls w) (confirms w).
Definition with_environ (en : list (string * string)) (w : World) : World :=
  mkWorld (clock w) (files w) en (polls w) (confirms w).
Definition with_polls (n : nat) (w : World) : World :=
  mkWorld (clock w) (files w) (environ w) n (confirms w).
Definition with_confirms (n : nat) (w : World) : World :=
  mkWorld (clock w) (files w) (environ w) (polls w) n.

Definition os_environ_set (key value : string) : M unit :=
  fun w => mkOut (Ok tt) (with_environ (assoc_set key value (environ w)) w)
                 [ESetEnv key value].

Definition time_time : M Z := fun w => mkOut (Ok (clock w)) w [].

Definition time_sleep (seconds : Z) : M unit :=
  fun w => mkOut (Ok tt) (with_clock (clock w + seconds) w) [ESleep seconds].

Definition write_file (path content : string) : M unit :=
  fun w => mkOut (Ok tt) (with_files (assoc_set path content (files w)) w)
                 [EWriteFile path content].

Definition os_path_exists (path : string) : M bool :=
  fun w => mkOut (Ok (match assoc_get path (files w) with
                      | Some _ => true
                      | None => false
                      end)) w [].

Definition os_remove (path : string) : M unit :=
  fun w => mkOut (Ok tt) (with_files (assoc_del path (files w)) w)
                 [ERemoveFile path].

(** [kwargs[key]]. *)
Definition dict_getitem (kwargs : list (string * string)) (key : string) : M string :=
  match assoc_get key kwargs with
  | Some v => ret v
  | None => raise (KeyError key)
  end.

(** [items[0]]. *)
Definition list_first {A} (items : list A) : M A :=
  match items with
  | x :: _ => ret x
  | [] => raise (IndexError "list index out of range")
  end.

(** The loop
      [flags = []; for key, value in kwargs.items(): flags.extend([f"--{key}", f"{value}"])]
    over the keyword arguments in their insertion order. *)
Definition build_flags (kwargs : list (string * string)) : list string :=
  fold_left (fun flags kv => flags ++ [("--" ++ fst kv)%string; snd kv]) kwargs [].

(** The argument vectors of [_run_helm_list] and [_run_helm_install]. *)
Definition helm_list_cmd (kwargs : list (string * string)) : list string :=
  ["helm"; "list"] ++ build_flags kwargs.

Definition helm_install_cmd (installation_type name chart : string)
           (kwargs : list (string * string)) : list string :=
  ["helm"; installation_type; name; chart] ++ build_flags kwargs.

(** [is_pod_ready], on the list of conditions. *)
Fixpoint first_ready_condition (conditions : list V1PodCondition) : bool :=
  match conditions with
  | [] => false
  | condition :: rest =>
      if String.eqb (cond_type condition) "Ready"
      then String.eqb (cond_status condition) "True"
      else first_ready_condition rest
  end.

Definition is_pod_ready (pod : V1Pod) : M bool :=
  match pod_conditions pod with
  | Some conditions => ret (first_ready_condition conditions)
  | None => raise (TypeError "'NoneType' object is not iterable")
  end.

(** [self]: what the backend object holds of its configuration. *)
Record Backend : Type := mkBackend {
  runtime_config_type : option string;
  operator_type : string;
  operator_info : option string;
  dry_run : bool
}.

Definition chart_ref : string :=
  "oci://iad.ocir.io/idogsu2ylimg/feature-store-data-plane-api-helidon/feature-store-dp-api".

Section Backend.

Variable E : Env.

Definition subprocess_run (argv : list string) : M CompletedProcess :=
  emit (ESubprocess argv (subprocess_result E argv)) ;;
  lift_sum (subprocess_result E argv).

Definition read_csv (bytes : string) : M DataFrame :=
  lift_sum (pd_read_csv E bytes).

Definition load_kube_config : M unit :=
  emit ELoadKubeConfig ;;
  match kube_config E with
  | Some e => raise e
  | None => ret tt
  end.

Definition list_namespaced_pod (ns label_selector : string) : M (list V1Pod) :=
  fun w =>
    mkOut (match pod_listing E (polls w) ns label_selector with
           | inl e => Raise e
           | inr items => Ok items
           end)
          (with_polls (S (polls w)) w)
          [EListPods ns label_selector].

Definition click_confirm (prompt : string) : M bool :=
  fun w =>
    let answer := terminal_answer E (confirms w) prompt in
    mkOut (Ok answer) (with_confirms (S (confirms w)) w) [EConfirm prompt answer].

Definition _set_kubernete_env : M unit :=
  os_environ_set "OCI_CLI_AUTH" "security_token" ;;
  os_environ_set "OCI_CLI_PROFILE" "SESSION_PROFILE".

Definition _run_helm_list (kwargs : list (string * string)) : M (option DataFrame) :=
  let helm_cmd := helm_list_cmd kwargs in
  result <- subprocess_run helm_cmd ;;
  if (returncode result =? 0)%Z
  then output <- read_csv (stdout result) ;; ret (Some output)
  else ret None.

Definition _check_if_chart_already_exist (name : string)
           (kwargs : list (string * string)) : M bool :=
  ns <- dict_getitem kwargs "namespace" ;;
  helm_list <- _run_helm_list [("namespace", ns)] ;;
  match helm_list with
  | None => raise (TypeError "'NoneType' object is not subscriptable")
  | Some frame =>
      names <- frame_getitem frame "NAME" ;;
      ret (series_any (series_eq names name))
  end.

Definition _run_helm_install (name chart : string)
           (kwargs : list (string * string)) : M CompletedProcess :=
  _set_kubernete_env ;;
  present <- _check_if_chart_already_exist name kwargs ;;
  let installation_type := if negb present then "install" else "upgrade" in
  let helm_cmd := helm_install_cmd installation_type name chart kwargs in
  subprocess_run helm_cmd.

Definition _save_helm_value_to_yaml (helm_values : string) : M string :=
  let override_value_path := os_path_join (tempdir_name E) "values.yaml" in
  write_file override_value_path helm_values ;;
  ret override_value_path.

Definition _delete_temp_file (temp_file : string) : M bool :=
  present <- os_path_exists temp_file ;;
  if present then os_remove temp_file ;; ret true else ret false.

(** The [while True] loop of [_wait_for_pod_ready]; [fuel] bounds the
    number of rounds. *)
Fixpoint wait_loop (fuel : nat) (timeout_seconds sleep_time : Z)
         (ns pod_name : string) (start_time : Z) : M Z :=
  match fuel with
  | O => diverge
  | S fuel' =>
      items <- list_namespaced_pod ns ("app.kubernetes.io/instance=" ++ pod_name)%string ;;
      pod <- list_first items ;;
      ready <- is_pod_ready pod ;;
      if ready then ret 0%Z
      else
        now <- time_time ;;
        if (now - start_time >=? timeout_seconds)%Z then ret (-1)%Z
        else
          time_sleep sleep_time ;;
          wait_loop fuel' timeout_seconds sleep_time ns pod_name start_time
  end.

(** Rounds after which the loop has certainly left: one per started
    interval up to the deadline, and the one at the deadline. *)
Definition rounds (timeout_seconds sleep_time : Z) : nat :=
  Z.to_nat (timeout_seconds / sleep_time) + 2.

Definition wait_for_pod_ready_with (timeout_seconds sleep_time : Z)
           (ns pod_name : string) : M Z :=
  _set_kubernete_env ;;
  load_kube_config ;;
  start_time <- time_time ;;
  wait_loop (rounds timeout_seconds sleep_time) timeout_seconds sleep_time
            ns pod_name start_time.

Definition _wait_for_pod_ready (ns pod_name : string) : M Z :=
  wait_for_pod_ready_with (10 * 60)%Z 20%Z ns pod_name.

(** The body of the [for agreement_summary in agreement_summaries] loop
    of [check_prerequisites]. *)
Fixpoint agreements_loop (lid cid ver : string)
         (accepted_agreement_ids : list string)
         (agreement_summaries : list AgreementSummary) : M unit :=
  match agreement_summaries with
  | [] => ret tt
  | agreement_summary :: rest =>
      (if negb (str_mem (as_id agreement_summary) accepted_agreement_ids)
       then
         emit (EGetAgreement lid ver (as_id agreement_summary)) ;;
         let agreement := agreement_of E lid ver (as_id agreement_summary) in
         emit (EOpenBrowser (ag_content_url agreement)) ;;
         time_sleep 2 ;;
         answer <- click_confirm (cleanse (ag_prompt agreement)) ;;
         if negb answer then raise Exception_
         else
           emit (ECreateAcceptedAgreement
                   (mkAccept (as_id agreement_summary) lid cid
                             (ag_signature agreement) ver))
       else ret tt) ;;
      agreements_loop lid cid ver accepted_agreement_ids rest
  end.

Definition check_prerequisites (listing_details : ListingDetails) : M unit :=
  let b := listing_base listing_details in
  let cid := compartment_id b in
  let ver := version b in
  let lid := listing_id b in
  emit (EGetListing lid) ;;
  emit (EListAcceptedAgreements lid cid) ;;
  let accepted_agreements := accepted_agreement_ids_of E lid cid in
  emit (EListAgreements lid ver) ;;
  let agreement_summaries := agreement_summaries_of E lid ver in
  let accepted_agreement_ids :=
    fold_left (fun ids aid => ids ++ [aid]) accepted_agreements [] in
  agreements_loop lid cid ver accepted_agreement_ids agreement_summaries.

Definition _run_with_python : M (option Z) :=
  let listing_details := listing_details_of E in
  match listing_details with
  | HelmListing _ h =>
      override_value_path <- _save_helm_value_to_yaml (helm_values h) ;;
      helm_install_status <-
        _run_helm_install (helm_app_name h) chart_ref
          [("version", "1.0.0");
           ("namespace", namespace h);
           ("values", override_value_path)] ;;
      _delete_temp_file override_value_path ;;
      if (returncode helm_install_status =? 0)%Z
      then r <- _wait_for_pod_ready (namespace h) (helm_app_name h) ;; ret (Some r)
      else ret (Some (-1)%Z)
  | PlainListing _ => ret None
  end.

(** [exit_code != 0] for an [int] or [None]. *)
Definition differs_from_zero (exit_code : option Z) : bool :=
  match exit_code with
  | Some z => negb (z =? 0)%Z
  | None => true
  end.

(** [run] over a given [_RUNTIME_RUN_MAP]; the [dry_run] option only
    produces a message. *)
Definition run_over (runtime_run_map : list (string * M (option Z)))
           (self : Backend) : M unit :=
  let runtime_type :=
    match runtime_config_type self with
    | Some t => t
    | None => default_runtime_type E
    end in
  match assoc_get runtime_type runtime_run_map with
  | None =>
      raise (RuntimeError
               ("Not supported runtime - " ++ runtime_type ++
                " for local backend. Supported values: " ++
                str_of_keys (map fst runtime_run_map))%string)
  | Some _ =>
      (match operator_info self with
       | Some _ => ret tt
       | None =>
           emit (ELoadOperator (operator_type self)) ;;
           match operator_loader E (operator_type self) with
           | Some e => raise e
           | None => ret tt
           end
       end) ;;
      exit_code <-
        match assoc_get runtime_type runtime_run_map with
        | Some runtime_run => runtime_run
        | None => ret None
        end ;;
      if differs_from_zero exit_code
      then raise (RuntimeError
                    ("Operation did not complete successfully. Exit code: " ++
                     str_of_exit_code exit_code ++
                     ". Run with the --debug argument to view logs.")%string)
      else ret tt
  end.

Definition _RUNTIME_RUN_MAP : list (string * M (option Z)) :=
  [(python_runtime_type E, _run_with_python)].

Definition run (self : Backend) : M unit := run_over _RUNTIME_RUN_MAP self.

End Backend.

(** ** Reading the log *)

Definition confirmations (l : list event) : list (string * bool) :=
  flat_map (fun e => match e with
                     | EConfirm prompt answer => [(prompt, answer)]
                     | _ => []
                     end) l.

Definition recordings (l : list event) : list CreateAcceptedAgreementDetails :=
  flat_map (fun e => match e with
                     | ECreateAcceptedAgreement d => [d]
                     | _ => []
                     end) l.

Definition pod_fetches (l : list event) : list (string * string) :=
  flat_map (fun e => match e with
                     | EListPods ns selector => [(ns, selector)]
                     | _ => []
                     end) l.

(** The subprocess calls whose verb is [install] or [upgrade]. *)
Definition is_install_argv (argv : list string) : bool :=
  match argv with
  | _ :: verb :: _ => String.eqb verb "install" || String.eqb verb "upgrade"
  | _ => false
  end.

Definition install_invocations (l : list event)
  : list (list string * (exn + CompletedProcess)) :=
  flat_map (fun e => match e with
                     | ESubprocess argv r =>
                         if is_install_argv argv then [(argv, r)] else []
                     | _ => []
                     end) l.

Definition subprocess_calls (l : list event) : list (list string) :=
  flat_map (fun e => match e with
                     | ESubprocess argv _ => [argv]
                     | _ => []
                     end) l.

Definition file_exists (path : string) (w : World) : bool :=
  match assoc_get path (files w) with
  | Some _ => true
  | None => false
  end.

(** The required agreements that are not in the accepted list, in the order
    of the listing, with what the gate shows and records for each. *)
Definition unaccepted (E : Env) (ld : ListingDetails) : list AgreementSummary :=
  let b := listing_base ld in
  filter (fun a => negb (str_mem (as_id a)
                           (accepted_agreement_ids_of E (listing_id b) (compartment_id b))))
         (agreement_summaries_of E (listing_id b) (version b)).

Definition shown_prompt (E : Env) (ld : ListingDetails) (a : AgreementSummary) : string :=
  let b := listing_base ld in
  cleanse (ag_prompt (agreement_of E (listing_id b) (version b) (as_id a))).

Definition acceptance_of (E : Env) (ld : ListingDetails) (a : AgreementSummary)
  : CreateAcceptedAgreementDetails :=
  let b := listing_base ld in
  mkAccept (as_id a) (listing_id b) (compartment_id b)
           (ag_signature (agreement_of E (listing_id b) (version b) (as_id a)))
           (version b).

(** ** A text model of the table parser

    [pandas.read_csv] with the separator [\s*\t\s*] on the listing tool's
    output, for tables whose cells are plain text: blank lines are skipped,
    the first line names the columns, a line is cut at every longest run of
    white space that holds a tab, an absent or empty cell reads as NaN, and
    input without any line raises [EmptyDataError]. *)

Definition tab : ascii := Ascii.ascii_of_nat 9.

Definition is_space (c : ascii) : bool :=
  let n := Ascii.nat_of_ascii c in
  Nat.eqb n 32 || (Nat.leb 9 n && Nat.leb n 13) || (Nat.leb 28 n && Nat.leb n 31).

Fixpoint split_lines (cur : list ascii) (s : string) : list string :=
  match s with
  | EmptyString => [rev_onto cur EmptyString]
  | String c rest =>
      if Ascii.eqb c newline
      then rev_onto cur EmptyString :: split_lines [] rest
      else split_lines (c :: cur) rest
  end.

Fixpoint split_fields (field ws : list ascii) (tabbed : bool) (line : string)
  : list string :=
  match line with
  | EmptyString =>
      if tabbed then [rev_onto field EmptyString; EmptyString]
      else [rev_onto (ws ++ field) EmptyString]
  | String c rest =>
      if is_space c
      then split_fields field (c :: ws) (tabbed || Ascii.eqb c tab) rest
      else if tabbed
           then rev_onto field EmptyString :: split_fields [c] [] false rest
           else split_fields (c :: ws ++ field) [] false rest
  end.

Definition text_cell (row : list string) (j : nat) : cell :=
  match nth_error row j with
  | Some EmptyString => CNaN
  | Some s => CStr s
  | None => CNaN
  end.

Definition read_csv_text (bytes : string) : exn + DataFrame :=
  let lines := filter (fun l => negb (String.eqb l EmptyString))
                      (split_lines [] bytes) in
  match lines with
  | [] => inl (EmptyDataError "No columns to parse from file")
  | header :: rows =>
      let names := split_fields [] [] false header in
      let table := map (split_fields [] [] false) rows in
      inr (mkFrame (map (fun jn => (snd jn, map (fun row => text_cell row (fst jn)) table))
                        (combine (seq 0 (length names)) names)))
  end.

(** ** Sample environments *)

Module Sample.

Definition tabs (cells : list string) : string :=
  String.concat (String tab EmptyString) cells.

Definition nl : string := String newline EmptyString.

Definition header : string :=
  tabs ["NAME     "; "NAMESPACE"; "REVISION"; "UPDATED"; "STATUS  "; "CHART"; "APP VERSION"].

Definition row (name : string) : string :=
  tabs [(name ++ "    ")%string; "ns1      "; "1       "; "2023-10-01 10:00:00 +0000 UTC";
        "deployed"; "feature-store-dp-api-1.0.0"; "1.0.0      "].

Definition listing_empty : string := (header ++ nl)%string.
Definition listing_demo : string := (header ++ nl ++ row "demo" ++ nl)%string.

Definition ready_pod : V1Pod :=
  mkPod (Some [mkCond "PodScheduled" "True"; mkCond "Ready" "True"]).
Definition pending_pod : V1Pod :=
  mkPod (Some [mkCond "PodScheduled" "True"; mkCond "Ready" "False"]).

Definition details : ListingDetails :=
  HelmListing (mkListing "ocid1.listing" "ocid1.compartment" "1.0")
              (mkHelm "replicas: 1" "demo" "ns1").

(** An environment from the answers of the subprocesses, of the pod
    listing and of the terminal; nothing else fails, one agreement
    ["a1"] is already accepted and ["a2"] is not. *)
Definition env (procs : list string -> exn + CompletedProcess)
           (pods : nat -> exn + list V1Pod) (answers : nat -> bool)
           (ld : ListingDetails) : Env :=
  mkEnv procs read_csv_text None
        (fun k _ _ => pods k)
        (fun k _ => answers k)
        "/tmp/tmpq1w2e3"
        (fun _ _ => ["a1"])
        (fun _ _ => [mkSummary "a1" "Oracle"; mkSummary "a2" "Vendor"])
        (fun _ _ aid => mkAgreement ("https://terms/" ++ aid)%string
                                    ("Do you <b>accept</b> " ++ aid ++ "?")%string
                                    ("sig-" ++ aid)%string)
        ld
        (fun _ => None)
        "python" "python".

(** [helm list] prints [listing]; [helm install]/[upgrade] exits with [rc]. *)
Definition helm (listing_rc : Z) (listing : string) (rc : Z)
           (argv : list string) : exn + CompletedProcess :=
  match argv with
  | _ :: "list" :: _ => inr (mkProc listing_rc listing)
  | _ => inr (mkProc rc EmptyString)
  end.

(** The same environment with another list of accepted agreement ids. *)
Definition with_accepted (ids : list string) (E : Env) : Env :=
  mkEnv (subprocess_result E) (pd_read_csv E) (kube_config E) (pod_listing E)
        (terminal_answer E) (tempdir_name E)
        (fun _ _ => ids)
        (agreement_summaries_of E) (agreement_of E) (listing_details_of E)
        (operator_loader E) (python_runtime_type E) (default_runtime_type E).

Definition w0 : World := mkWorld 1000 [] [] 0 0.


End Sample.

(** ** Predicates on computations and outcomes *)

(** [emits P m]: every event [m] logs, from any world, satisfies [P]. *)
Definition emits {A} (P : event -> Prop) (m : M A) : Prop :=
  forall w, Forall P (log (m w)).


Definition not_subprocess (e : event) : Prop :=
  match e with
  | ESubprocess _ _ => False
  | _ => True
  end.

Definition not_install (e : event) : Prop :=
  match e with
  | ESubprocess argv _ => is_install_argv argv = false
  | _ => True
  end.

Definition not_pod_fetch (e : event) : Prop :=
  match e with
  | EListPods _ _ => False
  | _ => True
  end.

Definition values_path (E : Env) : string :=
  os_path_join (tempdir_name E) "values.yaml".

Definition install_kwargs (E : Env) (h : HelmFields) : list (string * string) :=
  [("version", "1.0.0"); ("namespace", namespace h); ("values", values_path E)].

(** The world in which the install step of a run from [w] starts. *)
Definition world_with_values (E : Env) (h : HelmFields) (w : World) : World :=
  with_files (assoc_set (values_path E) (helm_values h) (files w)) w.

(** [keeps proj m]: [m] ends in a world with the same [proj] as it started. *)
Definition keeps {A X} (proj : World -> X) (m : M A) : Prop :=
  forall w, proj (world (m w)) = proj w.



(** The accepted list covers the required agreements of the listing. *)
Definition covers_required (E : Env) (ld : ListingDetails) : Prop :=
  forall a,
    In a (agreement_summaries_of E (listing_id (listing_base ld))
                                 (version (listing_base ld))) ->
    str_mem (as_id a)
            (accepted_agreement_ids_of E (listing_id (listing_base ld))
                                       (compartment_id (listing_base ld))) = true.

(** The runtime type [run] selects, and whether loading the operator
    information (needed when the backend has none) fails. *)
Definition selected_runtime (E : Env) (self : Backend) : string :=
  match runtime_config_type self with
  | Some t => t
  | None => default_runtime_type E
  end.

Definition loader_failure (E : Env) (self : Backend) : option exn :=
  match operator_info self with
  | Some _ => None
  | None => operator_loader E (operator_type self)
  end.

(** ** Further parts of the backend *)

(** Whether [<.*?>] matches somewhere in [s]: some [<] is followed by a [>]
    on the same line.  [opened] tells that a [<] was seen on the line being
    read. *)
Fixpoint has_tag_from (opened : bool) (s : string) : bool :=
  match s with
  | EmptyString => false
  | String c rest =>
      if Ascii.eqb c newline then has_tag_from false rest
      else if Ascii.eqb c ">" then (if opened then true else has_tag_from false rest)
      else if Ascii.eqb c "<" then has_tag_from true rest
      else has_tag_from opened rest
  end.

Definition has_tag (s : string) : bool := has_tag_from false s.

(** Every character of [s] passes [p]. *)
Fixpoint all_chars (p : ascii -> bool) (s : string) : bool :=
  match s with
  | EmptyString => true
  | String c rest => p c && all_chars p rest
  end.



(** The events [run] logs before it starts the runtime function. *)
Definition loader_events (self : Backend) : list event :=
  match operator_info self with
  | Some _ => []
  | None => [ELoadOperator (operator_type self)]
  end.

(** A finished subprocess as the value or the exception of the call. *)
Definition completed (r : exn + CompletedProcess) : Result CompletedProcess :=
  match r with
  | inl e => Raise e
  | inr p => Ok p
  end.

(** The label selector the poller lists pods with. *)
Definition selector_of (pod_name : string) : string :=
  ("app.kubernetes.io/instance=" ++ pod_name)%string.

(** What one round of the poller makes of a listing: the readiness of its
    first pod, or the exception that ends the poll. *)
Definition first_pod_state (r : exn + list V1Pod) : Result bool :=
  match r with
  | inl e => Raise e
  | inr [] => Raise (IndexError "list index out of range")
  | inr (pod :: _) =>
      match pod_conditions pod with
      | Some conditions => Ok (first_ready_condition conditions)
      | None => Raise (TypeError "'NoneType' object is not iterable")
      end
  end.

(** A listing cut down to its first pod. *)
Definition head_only (r : exn + list V1Pod) : exn + list V1Pod :=
  match r with
  | inr (pod :: _) => inr [pod]
  | _ => r
  end.



(** What the gate does for one agreement that is not accepted yet, given
    the answer at the terminal. *)
Definition asked_events (E : Env) (lid cid ver : string) (a : AgreementSummary)
           (answer : bool) : list event :=
  [EGetAgreement lid ver (as_id a);
   EOpenBrowser (ag_content_url (agreement_of E lid ver (as_id a)));
   ESleep 2;
   EConfirm (cleanse (ag_prompt (agreement_of E lid ver (as_id a)))) answer]
    ++ (if answer
        then [ECreateAcceptedAgreement
                (mkAccept (as_id a) lid cid
                          (ag_signature (agreement_of E lid ver (as_id a))) ver)]
        else []).

(** The three listing calls the gate starts with. *)
Definition gate_header (ld : ListingDetails) : list event :=
  let b := listing_base ld in
  [EGetListing (listing_id b);
   EListAcceptedAgreements (listing_id b) (compartment_id b);
   EListAgreements (listing_id b) (version b)].

(** *** The configuration sections of [__init__] *)

(** The sections of [self.config] that [__init__] keeps out of the operator
    configuration. *)
Definition backend_sections : list string := ["runtime"; "infrastructure"; "execution"].

(** [self.operator_config]: the entries of [self.config], in order, whose
    key is not one of the three sections. *)
Definition operator_config_of {V} (config : list (string * V)) : list (string * V) :=
  filter (fun kv => negb (str_mem (fst kv) backend_sections)) config.

(** [self.operator_type = self.operator_config.get("type")]. *)
Definition operator_type_of {V} (config : list (string * V)) : option V :=
  assoc_get "type" (operator_config_of config).

(** *** The set difference of [_export_helm_chart_to_container_registry] *)

(** A container image summary, as far as the export reads it. *)
Record ContainerImage : Type := mkImage {
  image_id : string;
  image_display_name : string
}.

Definition image_key (x : ContainerImage) : string * string :=
  (image_id x, image_display_name x).

Definition key_eqb (a b : string * string) : bool :=
  String.eqb (fst a) (fst b) && String.eqb (snd a) (snd b).

(** [set(keys)], as the list of the distinct keys. *)
Fixpoint key_set (keys : list (string * string)) : list (string * string) :=
  match keys with
  | [] => []
  | k :: rest =>
      if existsb (key_eqb k) rest then key_set rest else k :: key_set rest
  end.

(** What [_export_helm_chart_to_container_registry] returns, from the images
    listed before and after the export:
    [set(map(key, after)) - set(map(key, before))]. *)
Definition new_resources (images_before_export images_after_export : list ContainerImage)
  : list (string * string) :=
  filter (fun k => negb (existsb (key_eqb k)
                           (key_set (map image_key images_before_export))))
         (key_set (map image_key images_after_export)).

(** * Properties *)

(** ** Monad and list facts *)


Lemma ret_bind {A B} (a : A) (f : A -> M B) (w : World) :
  bind (ret a) f w = f a w.
Proof. unfold bind, ret. cbn [res world log app]. now destruct (f a w). Qed.

Lemma res_bind {A B} (m : M A) (f : A -> M B) (w : World) :
  res (bind m f w)
  = match res (m w) with
    | Ok a => res (f a (world (m w)))
    | Raise e => Raise e
    | Diverge => Diverge
    end.
Proof. unfold bind. destruct (res (m w)); reflexivity. Qed.

Lemma world_bind {A B} (m : M A) (f : A -> M B) (w : World) :
  world (bind m f w)
  = match res (m w) with
    | Ok a => world (f a (world (m w)))
    | _ => world (m w)
    end.
Proof. unfold bind. destruct (res (m w)); reflexivity. Qed.

Lemma log_bind {A B} (m : M A) (f : A -> M B) (w : World) :
  log (bind m f w)
  = log (m w) ++ match res (m w) with
                 | Ok a => log (f a (world (m w)))
                 | _ => []
                 end.
Proof. unfold bind. destruct (res (m w)); simpl; now rewrite ?app_nil_r. Qed.

Lemma install_invocations_app (l1 l2 : list event) :
  install_invocations (l1 ++ l2) = install_invocations l1 ++ install_invocations l2.
Proof. apply flat_map_app. Qed.

Lemma pod_fetches_app (l1 l2 : list event) :
  pod_fetches (l1 ++ l2) = pod_fetches l1 ++ pod_fetches l2.
Proof. apply flat_map_app. Qed.

Lemma confirmations_app (l1 l2 : list event) :
  confirmations (l1 ++ l2) = confirmations l1 ++ confirmations l2.
Proof. apply flat_map_app. Qed.

Lemma recordings_app (l1 l2 : list event) :
  recordings (l1 ++ l2) = recordings l1 ++ recordings l2.
Proof. apply flat_map_app. Qed.

Lemma subprocess_calls_app (l1 l2 : list event) :
  subprocess_calls (l1 ++ l2) = subprocess_calls l1 ++ subprocess_calls l2.
Proof. apply flat_map_app. Qed.

Lemma fold_extend {A B} (f : A -> list B) (l : list A) (acc : list B) :
  fold_left (fun flags x => flags ++ f x) l acc = acc ++ flat_map f l.
Proof.
  revert acc. induction l as [|x l IH]; intros acc; simpl.
  - now rewrite app_nil_r.
  - rewrite IH. now rewrite <- app_assoc.
Qed.

Lemma build_flags_flat_map (kwargs : list (string * string)) :
  build_flags kwargs
  = flat_map (fun kv => [("--" ++ fst kv)%string; snd kv]) kwargs.
Proof. unfold build_flags. now rewrite fold_extend. Qed.

(** The [i]-th keyword argument sits at positions [2i] and [2i+1]. *)
Lemma build_flags_nth (kwargs : list (string * string)) (i : nat) (k v : string) :
  nth_error kwargs i = Some (k, v) ->
  nth_error (build_flags kwargs) (2 * i) = Some ("--" ++ k)%string /\
  nth_error (build_flags kwargs) (2 * i + 1) = Some v.
Proof.
  rewrite build_flags_flat_map. revert i.
  induction kwargs as [|[k' v'] l IH]; intros i H.
  - destruct i; discriminate.
  - destruct i as [|i]; simpl in *.
    + inversion H; subst. split; reflexivity.
    + replace (i + S (i + 0)) with (S (2 * i)) by lia.
      replace (i + S (i + 0) + 1) with (S (2 * i + 1)) by lia.
      simpl. apply IH. exact H.
Qed.

Lemma build_flags_length (kwargs : list (string * string)) :
  length (build_flags kwargs) = 2 * length kwargs.
Proof.
  rewrite build_flags_flat_map.
  induction kwargs as [|kv l IH]; [reflexivity|].
  change (flat_map (fun kv0 => [("--" ++ fst kv0)%string; snd kv0]) (kv :: l))
    with ([("--" ++ fst kv)%string; snd kv]
            ++ flat_map (fun kv0 => [("--" ++ fst kv0)%string; snd kv0]) l).
  rewrite length_app, IH. simpl. lia.
Qed.

(** ** The command runner *)

(** The probe runs at most the listing command of the namespace. *)
Lemma probe_calls (E : Env) (name : string) (kwargs : list (string * string))
      (w : World) :
  subprocess_calls (log (_check_if_chart_already_exist E name kwargs w)) = []
  \/ exists ns,
      subprocess_calls (log (_check_if_chart_already_exist E name kwargs w))
      = [helm_list_cmd [("namespace", ns)]].
Proof.
  unfold _check_if_chart_already_exist, dict_getitem.
  destruct (assoc_get "namespace" kwargs) as [ns|]; [|left; reflexivity].
  right. exists ns. rewrite ret_bind.
  unfold _run_helm_list, subprocess_run, read_csv, frame_getitem, bind; simpl.
  destruct (subprocess_result E (helm_list_cmd [("namespace", ns)])) as [e|p];
    simpl; [reflexivity|].
  destruct (returncode p =? 0)%Z; simpl; [|reflexivity].
  destruct (pd_read_csv E (stdout p)) as [e|frame]; simpl; [reflexivity|].
  destruct (assoc_get "NAME" (df_columns frame)); reflexivity.
Qed.

(** The install step runs the probe's command and then at most one more
    command: the install or the upgrade, built from its arguments. *)
Lemma install_step_calls (E : Env) (name chart : string)
      (kwargs : list (string * string)) (w : World) (argv : list string) :
  In argv (subprocess_calls (log (_run_helm_install E name chart kwargs w))) ->
  (exists ns, argv = helm_list_cmd [("namespace", ns)])
  \/ argv = helm_install_cmd "install" name chart kwargs
  \/ argv = helm_install_cmd "upgrade" name chart kwargs.
Proof.
  unfold _run_helm_install. rewrite log_bind.
  assert (Henv : res (_set_kubernete_env w) = Ok tt) by reflexivity.
  rewrite Henv, log_bind.
  set (w1 := world (_set_kubernete_env w)).
  rewrite !subprocess_calls_app.
  change (subprocess_calls (log (_set_kubernete_env w))) with (@nil (list string)).
  cbn [app]. intros Hin. apply in_app_or in Hin. destruct Hin as [Hin|Hin].
  - left. destruct (probe_calls E name kwargs w1) as [Hp|[ns Hp]];
      rewrite Hp in Hin; [destruct Hin|].
    destruct Hin as [Heq|[]]. exists ns. now subst.
  - right.
    destruct (res (_check_if_chart_already_exist E name kwargs w1)) as [present| |];
      [ | destruct Hin | destruct Hin ].
    unfold subprocess_run in Hin. rewrite log_bind in Hin.
    cbn [emit res world log app] in Hin.
    assert (Hl : log (lift_sum
                        (subprocess_result E
                           (helm_install_cmd
                              (if negb present then "install" else "upgrade")
                              name chart kwargs))
                        (world (_check_if_chart_already_exist E name kwargs w1))) = [])
      by (destruct (subprocess_result E _); reflexivity).
    rewrite Hl in Hin. destruct Hin as [Heq|[]].
    subst argv. destruct present; [right|left]; reflexivity.
Qed.


(** ** The existence probe *)

Lemma series_any_In (names : list cell) (name : string) :
  series_any (series_eq names name) = true <-> In (CStr name) names.
Proof.
  unfold series_any, series_eq. rewrite existsb_exists. split.
  - intros [b [Hin Hb]]. subst b. apply in_map_iff in Hin.
    destruct Hin as [c [Hc Hin]]. destruct c; simpl in Hc; try discriminate.
    apply String.eqb_eq in Hc. now subst.
  - intros Hin. exists true. split; [|reflexivity].
    apply in_map_iff. exists (CStr name). split; [|assumption].
    simpl. apply String.eqb_refl.
Qed.

Lemma probe_on_frame (E : Env) (name ns : string) (kwargs : list (string * string))
      (w : World) (p : CompletedProcess) (frame : DataFrame) (names : list cell) :
  assoc_get "namespace" kwargs = Some ns ->
  subprocess_result E (helm_list_cmd [("namespace", ns)]) = inr p ->
  returncode p = 0%Z ->
  pd_read_csv E (stdout p) = inr frame ->
  assoc_get "NAME" (df_columns frame) = Some names ->
  _check_if_chart_already_exist E name kwargs w
  = mkOut (Ok (series_any (series_eq names name))) w
          [ESubprocess (helm_list_cmd [("namespace", ns)]) (inr p)].
Proof.
  intros Hns Hp Hrc Hcsv Hcol.
  unfold _check_if_chart_already_exist, dict_getitem. rewrite Hns.
  unfold _run_helm_list, subprocess_run, read_csv, frame_getitem.
  unfold bind; simpl. rewrite Hp; simpl. rewrite Hrc; simpl.
  rewrite Hcsv; simpl. rewrite Hcol; simpl. reflexivity.
Qed.

(** C2, amended: when the listing command succeeds and its output parses to
    a table with a NAME column, the probe returns false if the table has no
    rows, and returns true exactly when some cell of the NAME column is the
    queried name itself (an exact, case-sensitive match). *)
Theorem C2_probe_exact_match :
  forall (E : Env) (name ns : string) (kwargs : list (string * string))
         (w : World) (p : CompletedProcess) (frame : DataFrame)
         (names : list cell),
    assoc_get "namespace" kwargs = Some ns ->
    subprocess_result E (helm_list_cmd [("namespace", ns)]) = inr p ->
    returncode p = 0%Z ->
    pd_read_csv E (stdout p) = inr frame ->
    assoc_get "NAME" (df_columns frame) = Some names ->
    (names = [] -> res (_check_if_chart_already_exist E name kwargs w) = Ok false)
    /\ (res (_check_if_chart_already_exist E name kwargs w) = Ok true
        <-> In (CStr name) names)
    /\ (res (_check_if_chart_already_exist E name kwargs w) = Ok false
        <-> ~ In (CStr name) names).
Proof.
  intros E name ns kwargs w p frame names Hns Hp Hrc Hcsv Hcol.
  rewrite (probe_on_frame E name ns kwargs w p frame names Hns Hp Hrc Hcsv Hcol).
  simpl. pose proof (series_any_In names name) as Hany.
  repeat split.
  - intros ->. reflexivity.
  - intros H. apply Hany. congruence.
  - intros H. f_equal. now apply Hany.
  - intros H Hin. apply Hany in Hin. congruence.
  - intros H. f_equal. destruct (series_any (series_eq names name)) eqn:Hb;
      [exfalso; apply H, Hany; reflexivity | reflexivity].
Qed.

(** The listing of a namespace without releases (the header line alone)
    gives false; a listing with a row for ["demo"] gives true for ["demo"]
    and false for ["Demo"]. *)
Lemma C2_probe_exact_match_witness :
  res (_check_if_chart_already_exist
         (Sample.env (Sample.helm 0 Sample.listing_empty 0) (fun _ => inr [])
                     (fun _ => false) Sample.details)
         "demo" [("namespace", "ns1")] Sample.w0) = Ok false
  /\ res (_check_if_chart_already_exist
            (Sample.env (Sample.helm 0 Sample.listing_demo 0) (fun _ => inr [])
                        (fun _ => false) Sample.details)
            "demo" [("namespace", "ns1")] Sample.w0) = Ok true
  /\ res (_check_if_chart_already_exist
            (Sample.env (Sample.helm 0 Sample.listing_demo 0) (fun _ => inr [])
                        (fun _ => false) Sample.details)
            "Demo" [("namespace", "ns1")] Sample.w0) = Ok false.
Proof.
  pose (frame0 := mkFrame [("NAME", []); ("NAMESPACE", []); ("REVISION", []);
                           ("UPDATED", []); ("STATUS", []); ("CHART", []);
                           ("APP VERSION", [])]).
  pose (frame1 := mkFrame [("NAME", [CStr "demo"]); ("NAMESPACE", [CStr "ns1"]);
                           ("REVISION", [CStr "1"]);
                           ("UPDATED", [CStr "2023-10-01 10:00:00 +0000 UTC"]);
                           ("STATUS", [CStr "deployed"]);
                           ("CHART", [CStr "feature-store-dp-api-1.0.0"]);
                           ("APP VERSION", [CStr "1.0.0      "])]).
  split; [|split].
  - destruct (C2_probe_exact_match
                (Sample.env (Sample.helm 0 Sample.listing_empty 0) (fun _ => inr [])
                            (fun _ => false) Sample.details)
                "demo" "ns1" [("namespace", "ns1")] Sample.w0
                (mkProc 0 Sample.listing_empty) frame0 []
                eq_refl eq_refl eq_refl eq_refl eq_refl) as [H _].
    apply H. reflexivity.
  - destruct (C2_probe_exact_match
                (Sample.env (Sample.helm 0 Sample.listing_demo 0) (fun _ => inr [])
                            (fun _ => false) Sample.details)
                "demo" "ns1" [("namespace", "ns1")] Sample.w0
                (mkProc 0 Sample.listing_demo) frame1 [CStr "demo"]
                eq_refl eq_refl eq_refl eq_refl eq_refl) as [_ [H _]].
    apply H. left. reflexivity.
  - destruct (C2_probe_exact_match
                (Sample.env (Sample.helm 0 Sample.listing_demo 0) (fun _ => inr [])
                            (fun _ => false) Sample.details)
                "Demo" "ns1" [("namespace", "ns1")] Sample.w0
                (mkProc 0 Sample.listing_demo) frame1 [CStr "demo"]
                eq_refl eq_refl eq_refl eq_refl eq_refl) as [_ [_ H]].
    apply H. intros [Heq|[]]. discriminate Heq.
Defined.

(** C2 as stated fails: when the listing command prints nothing at all, the
    probe does not return false but raises, from the parser when the command
    succeeded and from the subscript on [None] when it did not. *)
Lemma C2_empty_output_raises :
  res (_check_if_chart_already_exist
         (Sample.env (Sample.helm 0 "" 0) (fun _ => inr [])
                     (fun _ => false) Sample.details)
         "demo" [("namespace", "ns1")] Sample.w0)
  = Raise (EmptyDataError "No columns to parse from file")
  /\ res (_check_if_chart_already_exist
            (Sample.env (Sample.helm 1 "" 0) (fun _ => inr [])
                        (fun _ => false) Sample.details)
            "demo" [("namespace", "ns1")] Sample.w0)
     = Raise (TypeError "'NoneType' object is not subscriptable").
Proof. split; reflexivity. Qed.

(** ** What a computation may log *)

Lemma emits_ret {A} (P : event -> Prop) (a : A) : emits P (ret a).
Proof. intros w. constructor. Qed.

Lemma emits_raise {A} (P : event -> Prop) (e : exn) : emits P (@raise A e).
Proof. intros w. constructor. Qed.

Lemma emits_diverge {A} (P : event -> Prop) : emits P (@diverge A).
Proof. intros w. constructor. Qed.

Lemma emits_emit (P : event -> Prop) (e : event) : P e -> emits P (emit e).
Proof. intros H w. repeat constructor. exact H. Qed.

Lemma emits_lift_sum {A} (P : event -> Prop) (r : exn + A) : emits P (lift_sum r).
Proof. destruct r; intros w; constructor. Qed.

Lemma emits_bind {A B} (P : event -> Prop) (m : M A) (f : A -> M B) :
  emits P m -> (forall a, emits P (f a)) -> emits P (bind m f).
Proof.
  intros Hm Hf w. unfold bind. specialize (Hm w).
  destruct (res (m w)) as [a| |]; simpl; try assumption.
  apply Forall_app. split; [assumption | apply Hf].
Qed.

Lemma emits_list_namespaced_pod (E : Env) (P : event -> Prop) (ns sel : string) :
  P (EListPods ns sel) -> emits P (list_namespaced_pod E ns sel).
Proof. intros H w. repeat constructor. exact H. Qed.

Lemma emits_click_confirm (E : Env) (P : event -> Prop) (prompt : string) :
  (forall answer, P (EConfirm prompt answer)) -> emits P (click_confirm E prompt).
Proof. intros H w. repeat constructor. apply H. Qed.

Lemma emits_time_time (P : event -> Prop) : emits P time_time.
Proof. intros w. constructor. Qed.

Lemma emits_os_path_exists (P : event -> Prop) (path : string) :
  emits P (os_path_exists path).
Proof. intros w. constructor. Qed.

Lemma emits_frame_getitem (P : event -> Prop) (df : DataFrame) (c : string) :
  emits P (frame_getitem df c).
Proof. unfold frame_getitem. destruct (assoc_get c (df_columns df)); intros w; constructor. Qed.

Lemma emits_dict_getitem (P : event -> Prop) (d : list (string * string)) (k : string) :
  emits P (dict_getitem d k).
Proof. unfold dict_getitem. destruct (assoc_get k d); intros w; constructor. Qed.

Lemma emits_list_first {A} (P : event -> Prop) (l : list A) : emits P (list_first l).
Proof. destruct l; intros w; constructor. Qed.

Lemma emits_is_pod_ready (P : event -> Prop) (pod : V1Pod) : emits P (is_pod_ready pod).
Proof. unfold is_pod_ready. destruct (pod_conditions pod); intros w; constructor. Qed.

Lemma emits_os_environ_set (P : event -> Prop) (k v : string) :
  P (ESetEnv k v) -> emits P (os_environ_set k v).
Proof. intros H w. repeat constructor. exact H. Qed.

Lemma emits_time_sleep (P : event -> Prop) (s : Z) :
  P (ESleep s) -> emits P (time_sleep s).
Proof. intros H w. repeat constructor. exact H. Qed.

Lemma emits_write_file (P : event -> Prop) (path content : string) :
  P (EWriteFile path content) -> emits P (write_file path content).
Proof. intros H w. repeat constructor. exact H. Qed.

Lemma emits_os_remove (P : event -> Prop) (path : string) :
  P (ERemoveFile path) -> emits P (os_remove path).
Proof. intros H w. repeat constructor. exact H. Qed.

(** Splits a computation along its binds and branches, leaving one goal
    [P e] for each logged event [e]. *)
Ltac emits_step :=
  first
    [ apply emits_ret | apply emits_raise | apply emits_diverge
    | apply emits_lift_sum
    | apply emits_list_namespaced_pod | apply emits_click_confirm; intros ?
    | apply emits_time_time | apply emits_os_path_exists
    | apply emits_frame_getitem | apply emits_dict_getitem
    | apply emits_list_first | apply emits_is_pod_ready
    | apply emits_emit | apply emits_os_environ_set | apply emits_time_sleep
    | apply emits_write_file | apply emits_os_remove
    | apply emits_bind; [|intros ?]
    | match goal with
      | |- emits _ (if ?b then _ else _) => destruct b
      | |- emits _ (match ?x with _ => _ end) => destruct x
      end ].

Ltac emits_all := repeat emits_step.


Lemma no_subprocess_calls (l : list event) :
  Forall not_subprocess l -> subprocess_calls l = [].
Proof.
  induction 1 as [|e l He _ IH]; [reflexivity|].
  destruct e; simpl in *; try contradiction; auto.
Qed.

Lemma no_install_invocations (l : list event) :
  Forall not_install l -> install_invocations l = [].
Proof.
  induction 1 as [|e l He _ IH]; [reflexivity|].
  destruct e; simpl in *; auto. rewrite He. exact IH.
Qed.

Lemma no_pod_fetches (l : list event) :
  Forall not_pod_fetch l -> pod_fetches l = [].
Proof.
  induction 1 as [|e l He _ IH]; [reflexivity|].
  destruct e; simpl in *; try contradiction; auto.
Qed.


(** *** Footprints of the operations *)

Lemma set_kubernete_env_emits (P : event -> Prop) :
  (forall k v, P (ESetEnv k v)) -> emits P _set_kubernete_env.
Proof. intros H. unfold _set_kubernete_env. emits_all; apply H. Qed.

Lemma probe_emits (E : Env) (P : event -> Prop) (name : string)
      (kwargs : list (string * string)) :
  (forall argv r, is_install_argv argv = false -> P (ESubprocess argv r)) ->
  emits P (_check_if_chart_already_exist E name kwargs).
Proof.
  intros H.
  unfold _check_if_chart_already_exist, _run_helm_list, subprocess_run, read_csv.
  emits_all. apply H. reflexivity.
Qed.

Lemma wait_loop_emits (E : Env) (P : event -> Prop) (fuel : nat)
      (timeout_seconds sleep_time : Z) (ns pod_name : string) (start_time : Z) :
  (forall n s, P (EListPods n s)) -> (forall s, P (ESleep s)) ->
  emits P (wait_loop E fuel timeout_seconds sleep_time ns pod_name start_time).
Proof.
  intros Hp Hs. induction fuel as [|fuel IH]; simpl.
  - apply emits_diverge.
  - emits_all; auto.
Qed.

Lemma wait_for_pod_ready_emits (E : Env) (P : event -> Prop) (ns pod_name : string) :
  (forall n s, P (EListPods n s)) -> (forall s, P (ESleep s)) ->
  (forall k v, P (ESetEnv k v)) -> P ELoadKubeConfig ->
  emits P (_wait_for_pod_ready E ns pod_name).
Proof.
  intros Hp Hs He Hk.
  unfold _wait_for_pod_ready, wait_for_pod_ready_with, load_kube_config.
  apply emits_bind; [apply set_kubernete_env_emits; exact He | intros _].
  apply emits_bind; [emits_all; exact Hk | intros _].
  apply emits_bind; [emits_all | intros t].
  apply wait_loop_emits; assumption.
Qed.




(** ** The readiness poller on an empty listing *)

Lemma wait_loop_empty_listing (E : Env) (fuel : nat) (timeout_seconds sleep_time : Z)
      (ns pod_name : string) (start_time : Z) (w : World) :
  pod_listing E (polls w) ns ("app.kubernetes.io/instance=" ++ pod_name)%string = inr [] ->
  res (wait_loop E (S fuel) timeout_seconds sleep_time ns pod_name start_time w)
  = Raise (IndexError "list index out of range").
Proof.
  intros H. cbn [wait_loop]. rewrite res_bind.
  unfold list_namespaced_pod; cbn [res world log]. rewrite H. reflexivity.
Qed.

(** C3, as the code has it: in any round of the polling loop in which the
    listing of matching pods is empty, the poller does not keep polling but
    raises [IndexError]; so does [_wait_for_pod_ready] when its first listing
    is empty. *)
Theorem C3_empty_listing_raises :
  forall (E : Env) (ns pod_name : string),
    (forall fuel timeout_seconds sleep_time start_time w,
        pod_listing E (polls w) ns ("app.kubernetes.io/instance=" ++ pod_name)%string
        = inr [] ->
        res (wait_loop E (S fuel) timeout_seconds sleep_time ns pod_name start_time w)
        = Raise (IndexError "list index out of range"))
    /\ (forall w,
           kube_config E = None ->
           pod_listing E (polls w) ns ("app.kubernetes.io/instance=" ++ pod_name)%string
           = inr [] ->
           res (_wait_for_pod_ready E ns pod_name w)
           = Raise (IndexError "list index out of range")).
Proof.
  intros E ns pod_name. split.
  - intros. now apply wait_loop_empty_listing.
  - intros w Hk H.
    unfold _wait_for_pod_ready, wait_for_pod_ready_with, load_kube_config.
    rewrite Hk.
    change (rounds (10 * 60) 20) with 32.
    rewrite !res_bind. cbn -[wait_loop].
    apply wait_loop_empty_listing. exact H.
Qed.

(** The install succeeded and no pod is scheduled yet at the first poll. *)
Lemma C3_empty_listing_raises_witness :
  res (_wait_for_pod_ready
         (Sample.env (Sample.helm 0 Sample.listing_empty 0) (fun _ => inr [])
                     (fun _ => true) Sample.details)
         "ns1" "demo" Sample.w0)
  = Raise (IndexError "list index out of range")
  /\ res (_run_with_python
            (Sample.env (Sample.helm 0 Sample.listing_empty 0) (fun _ => inr [])
                        (fun _ => true) Sample.details)
            Sample.w0)
     = Raise (IndexError "list index out of range").
Proof.
  split.
  - apply (proj2 (C3_empty_listing_raises
                    (Sample.env (Sample.helm 0 Sample.listing_empty 0)
                                (fun _ => inr []) (fun _ => true) Sample.details)
                    "ns1" "demo") Sample.w0); reflexivity.
  - reflexivity.
Defined.

(** ** The deployment run *)

Lemma probe_log_quiet (E : Env) (name : string) (kwargs : list (string * string))
      (w : World) :
  install_invocations (log (_check_if_chart_already_exist E name kwargs w)) = []
  /\ pod_fetches (log (_check_if_chart_already_exist E name kwargs w)) = [].
Proof.
  split.
  - apply no_install_invocations. apply probe_emits. intros; assumption.
  - apply no_pod_fetches. apply probe_emits. intros; exact I.
Qed.

(** In the install step nothing is fetched, and a finished install or
    upgrade invocation is the value the step returns. *)
Lemma install_step_invocations (E : Env) (name chart : string)
      (kwargs : list (string * string)) (w : World) :
  pod_fetches (log (_run_helm_install E name chart kwargs w)) = []
  /\ forall argv p,
      In (argv, inr p) (install_invocations (log (_run_helm_install E name chart kwargs w))) ->
      res (_run_helm_install E name chart kwargs w) = Ok p.
Proof.
  unfold _run_helm_install.
  set (probe := _check_if_chart_already_exist E name kwargs).
  rewrite ?log_bind, ?res_bind.
  assert (Henv : res (_set_kubernete_env w) = Ok tt) by reflexivity.
  rewrite Henv. rewrite ?log_bind, ?res_bind.
  set (w1 := world (_set_kubernete_env w)).
  destruct (probe_log_quiet E name kwargs w1) as [Hi Hf]. fold probe in Hi, Hf.
  rewrite !pod_fetches_app, !install_invocations_app, Hi, Hf.
  destruct (res (probe w1)) as [present| |]; cbn [app];
    try (split; [reflexivity | intros argv p []]).
  unfold subprocess_run. rewrite ?log_bind, ?res_bind. cbn [emit res world log app].
  set (cmd := helm_install_cmd _ name chart kwargs).
  assert (Hl : log (lift_sum (subprocess_result E cmd) (world (probe w1))) = [])
    by (destruct (subprocess_result E cmd); reflexivity).
  rewrite Hl.
  split; [reflexivity|].
  intros argv p.
  cbn [install_invocations flat_map app _set_kubernete_env os_environ_set bind
       res world log].
  destruct (is_install_argv cmd); [|intros []].
  intros [Heq|[]]. inversion Heq as [[Hargv Hres]].
  rewrite Hres. reflexivity.
Qed.

Lemma delete_temp_file_eq (path : string) (w : World) :
  _delete_temp_file path w
  = if file_exists path w
    then mkOut (Ok true) (with_files (assoc_del path (files w)) w) [ERemoveFile path]
    else mkOut (Ok false) w [].
Proof.
  unfold _delete_temp_file, os_path_exists, os_remove, file_exists, bind;
    cbn [res world log].
  destruct (assoc_get path (files w)); reflexivity.
Qed.

(** The run for a Helm listing, phase by phase. *)
Lemma run_with_python_helm (E : Env) (w : World)
      (b : MarketplaceListingDetails) (h : HelmFields) :
  listing_details_of E = HelmListing b h ->
  let inst := _run_helm_install E (helm_app_name h) chart_ref (install_kwargs E h)
                                (world_with_values E h w) in
  let del := _delete_temp_file (values_path E) (world inst) in
  let poll := _wait_for_pod_ready E (namespace h) (helm_app_name h) (world del) in
  _run_with_python E w
  = match res inst with
    | Ok st =>
        if (returncode st =? 0)%Z
        then mkOut (match res poll with
                    | Ok r => Ok (Some r)
                    | Raise e => Raise e
                    | Diverge => Diverge
                    end)
                   (world poll)
                   ([EWriteFile (values_path E) (helm_values h)]
                      ++ log inst ++ log del ++ log poll)
        else mkOut (Ok (Some (-1)%Z)) (world del)
                   ([EWriteFile (values_path E) (helm_values h)]
                      ++ log inst ++ log del)
    | Raise e => mkOut (Raise e) (world inst)
                       ([EWriteFile (values_path E) (helm_values h)] ++ log inst)
    | Diverge => mkOut Diverge (world inst)
                       ([EWriteFile (values_path E) (helm_values h)] ++ log inst)
    end.
Proof.
  intros Hld inst del poll. unfold _run_with_python. rewrite Hld.
  unfold _save_helm_value_to_yaml.
  fold (values_path E).
  unfold bind. cbn [write_file ret res world log app].
  fold (install_kwargs E h). fold (world_with_values E h w). fold inst.
  destruct (res inst) as [st| |]; [|reflexivity|reflexivity].
  cbn [res world log]. fold del.
  assert (Hdel : exists present, res del = Ok present).
  { unfold del. rewrite delete_temp_file_eq.
    destruct (file_exists (values_path E) (world inst)); eexists; reflexivity. }
  destruct Hdel as [present Hdel]. rewrite Hdel. cbn [res world log].
  destruct (returncode st =? 0)%Z.
  - fold poll. destruct (res poll); cbn [res world log ret];
      rewrite ?app_nil_r; reflexivity.
  - cbn [ret res world log]. rewrite app_nil_r. reflexivity.
Qed.

Lemma delete_temp_file_quiet (path : string) (w : World) :
  install_invocations (log (_delete_temp_file path w)) = []
  /\ pod_fetches (log (_delete_temp_file path w)) = [].
Proof.
  rewrite delete_temp_file_eq. destruct (file_exists path w); split; reflexivity.
Qed.

(** C5: in every deployment run in which an install or upgrade invocation
    exits with a non-zero code, the run returns -1 and the readiness poller
    is not invoked: no pod listing is fetched. *)
Theorem C5_failed_install_skips_poller :
  forall (E : Env) (w : World) (argv : list string) (p : CompletedProcess),
    In (argv, inr p) (install_invocations (log (_run_with_python E w))) ->
    returncode p <> 0%Z ->
    res (_run_with_python E w) = Ok (Some (-1)%Z)
    /\ pod_fetches (log (_run_with_python E w)) = [].
Proof.
  intros E w argv p Hin Hrc. revert Hin.
  destruct (listing_details_of E) as [b|b h] eqn:Hld.
  { unfold _run_with_python. rewrite Hld. intros []. }
  rewrite (run_with_python_helm E w b h Hld). cbv zeta.
  set (inst := _run_helm_install E (helm_app_name h) chart_ref (install_kwargs E h)
                                 (world_with_values E h w)).
  set (del := _delete_temp_file (values_path E) (world inst)).
  set (poll := _wait_for_pod_ready E (namespace h) (helm_app_name h) (world del)).
  destruct (install_step_invocations E (helm_app_name h) chart_ref
              (install_kwargs E h) (world_with_values E h w)) as [Hf Hi].
  fold inst in Hf, Hi.
  destruct (delete_temp_file_quiet (values_path E) (world inst)) as [Hdi Hdf].
  fold del in Hdi, Hdf.
  assert (Hpi : install_invocations (log poll) = []).
  { apply no_install_invocations.
    apply wait_for_pod_ready_emits; intros; exact I. }
  assert (Hfrom : forall rest,
             install_invocations rest = [] ->
             In (argv, inr p)
                (install_invocations
                   ([EWriteFile (values_path E) (helm_values h)] ++ log inst ++ rest)) ->
             res inst = Ok p).
  { intros rest Hrest. rewrite !install_invocations_app, Hrest, app_nil_r.
    cbn [install_invocations flat_map app]. apply Hi. }
  destruct (res inst) as [st| |] eqn:Hst.
  - destruct (returncode st =? 0)%Z eqn:Hz; cbn [res log].
    + intros Hin. exfalso.
      apply Hfrom in Hin.
      * inversion Hin; subst. apply Z.eqb_eq in Hz. contradiction.
      * rewrite install_invocations_app, Hdi, Hpi. reflexivity.
    + intros _. split; [reflexivity|].
      rewrite !pod_fetches_app, Hf, Hdf. reflexivity.
  - cbn [log]. intros Hin. exfalso.
    rewrite <- (app_nil_r (log inst)) in Hin. apply Hfrom in Hin; [discriminate | reflexivity].
  - cbn [log]. intros Hin. exfalso.
    rewrite <- (app_nil_r (log inst)) in Hin. apply Hfrom in Hin; [discriminate | reflexivity].
Qed.

(** The release exists, the upgrade exits with status 1. *)
Lemma C5_failed_install_skips_poller_witness :
  res (_run_with_python
         (Sample.env (Sample.helm 0 Sample.listing_demo 1)
                     (fun _ => inr [Sample.ready_pod]) (fun _ => true) Sample.details)
         Sample.w0) = Ok (Some (-1)%Z)
  /\ pod_fetches
       (log (_run_with_python
               (Sample.env (Sample.helm 0 Sample.listing_demo 1)
                           (fun _ => inr [Sample.ready_pod]) (fun _ => true)
                           Sample.details)
               Sample.w0)) = [].
Proof.
  apply (C5_failed_install_skips_poller
           (Sample.env (Sample.helm 0 Sample.listing_demo 1)
                       (fun _ => inr [Sample.ready_pod]) (fun _ => true) Sample.details)
           Sample.w0
           (helm_install_cmd "upgrade" "demo" chart_ref
                             [("version", "1.0.0"); ("namespace", "ns1");
                              ("values", "/tmp/tmpq1w2e3/values.yaml")])
           (mkProc 1 EmptyString)).
  - vm_compute. left. reflexivity.
  - discriminate.
Defined.

(** ** What a computation leaves unchanged *)

Lemma keeps_bind {A B X} (proj : World -> X) (m : M A) (f : A -> M B) :
  keeps proj m -> (forall a, keeps proj (f a)) -> keeps proj (bind m f).
Proof.
  intros Hm Hf w. rewrite world_bind.
  destruct (res (m w)) as [a| |]; try apply Hm.
  rewrite Hf. apply Hm.
Qed.

Lemma keeps_pure {A X} (proj : World -> X) (m : M A) :
  (forall w, world (m w) = w) -> keeps proj m.
Proof. intros H w. now rewrite H. Qed.

Lemma lift_sum_world {A} (r : exn + A) (w : World) : world (lift_sum r w) = w.
Proof. destruct r; reflexivity. Qed.

Lemma frame_getitem_world (df : DataFrame) (c : string) (w : World) :
  world (frame_getitem df c w) = w.
Proof. unfold frame_getitem. destruct (assoc_get c (df_columns df)); reflexivity. Qed.

Lemma dict_getitem_world (d : list (string * string)) (k : string) (w : World) :
  world (dict_getitem d k w) = w.
Proof. unfold dict_getitem. destruct (assoc_get k d); reflexivity. Qed.

Lemma list_first_world {A} (l : list A) (w : World) : world (list_first l w) = w.
Proof. destruct l; reflexivity. Qed.

Lemma is_pod_ready_world (pod : V1Pod) (w : World) : world (is_pod_ready pod w) = w.
Proof. unfold is_pod_ready. destruct (pod_conditions pod); reflexivity. Qed.

Ltac keeps_step :=
  first
    [ apply keeps_bind; [|intros ?]
    | apply keeps_pure; intros ?;
      first [ reflexivity | apply lift_sum_world | apply frame_getitem_world
            | apply dict_getitem_world | apply list_first_world
            | apply is_pod_ready_world ]
    | match goal with
      | |- keeps _ (if ?b then _ else _) => destruct b
      | |- keeps _ (match ?x with _ => _ end) => destruct x
      end
    | intros ?; reflexivity ].

Ltac keeps_all := repeat keeps_step.

Lemma install_step_keeps_files (E : Env) (name chart : string)
      (kwargs : list (string * string)) :
  keeps files (_run_helm_install E name chart kwargs).
Proof.
  unfold _run_helm_install, _set_kubernete_env, _check_if_chart_already_exist,
    _run_helm_list, subprocess_run, read_csv.
  keeps_all.
Qed.



Lemma assoc_get_set (k v : string) (d : list (string * string)) :
  assoc_get k (assoc_set k v d) = Some v.
Proof. unfold assoc_set. simpl. now rewrite String.eqb_refl. Qed.

Lemma assoc_get_del (k : string) (d : list (string * string)) :
  assoc_get k (assoc_del k d) = None.
Proof.
  unfold assoc_del. induction d as [|[k' v] d IH]; [reflexivity|].
  simpl. destruct (String.eqb k' k) eqn:Hk; simpl; [exact IH|].
  rewrite Hk. exact IH.
Qed.


(** C4, as the code has it: when the install step of a run raises (the
    listing command failed, the table could not be read, the subprocess
    could not be started), the run ends with that exception and the values
    file it wrote is still there: nothing removed it. *)
Theorem C4_artifact_left_when_install_raises :
  forall (E : Env) (w : World) (b : MarketplaceListingDetails) (h : HelmFields)
         (e : exn),
    listing_details_of E = HelmListing b h ->
    res (_run_helm_install E (helm_app_name h) chart_ref (install_kwargs E h)
                           (world_with_values E h w)) = Raise e ->
    res (_run_with_python E w) = Raise e
    /\ file_exists (values_path E) (world (_run_with_python E w)) = true
    /\ ~ In (ERemoveFile (values_path E)) (log (_run_with_python E w)).
Proof.
  intros E w b h e Hld Hst.
  rewrite (run_with_python_helm E w b h Hld). cbv zeta. rewrite Hst.
  cbn [res world log]. split; [reflexivity | split].
  - unfold file_exists. rewrite install_step_keeps_files.
    unfold world_with_values. cbn [files with_files]. now rewrite assoc_get_set.
  - intros [Hin|Hin]; [discriminate|].
    assert (Hno : Forall (fun ev => match ev with ERemoveFile _ => False | _ => True end)
                         (log (_run_helm_install E (helm_app_name h) chart_ref
                                 (install_kwargs E h) (world_with_values E h w)))).
    { unfold _run_helm_install, subprocess_run.
      apply emits_bind; [apply set_kubernete_env_emits; intros; exact I | intros _].
      apply emits_bind; [apply probe_emits; intros; exact I | intros present].
      emits_all. exact I. }
    rewrite Forall_forall in Hno. apply (Hno _ Hin).
Qed.

(** The listing command exits with status 1: the probe raises [TypeError]
    and the values file stays behind. *)
Lemma C4_artifact_left_when_install_raises_witness :
  res (_run_with_python
         (Sample.env (Sample.helm 1 "" 0) (fun _ => inr [Sample.ready_pod])
                     (fun _ => true) Sample.details)
         Sample.w0)
  = Raise (TypeError "'NoneType' object is not subscriptable")
  /\ file_exists "/tmp/tmpq1w2e3/values.yaml"
       (world (_run_with_python
                 (Sample.env (Sample.helm 1 "" 0) (fun _ => inr [Sample.ready_pod])
                             (fun _ => true) Sample.details)
                 Sample.w0)) = true.
Proof.
  destruct (C4_artifact_left_when_install_raises
              (Sample.env (Sample.helm 1 "" 0) (fun _ => inr [Sample.ready_pod])
                          (fun _ => true) Sample.details)
              Sample.w0
              (mkListing "ocid1.listing" "ocid1.compartment" "1.0")
              (mkHelm "replicas: 1" "demo" "ns1")
              (TypeError "'NoneType' object is not subscriptable")
              eq_refl eq_refl) as [Hres [Hfile _]].
  split; [exact Hres | exact Hfile].
Defined.

(** ** The readiness poller: termination within the deadline *)






(** ** The agreement gate *)

Lemma collect_ids (l : list string) :
  fold_left (fun ids aid => ids ++ [aid]) l [] = l.
Proof.
  rewrite (fold_extend (fun aid => [aid]) l []). simpl.
  induction l as [|x l IH]; simpl; congruence.
Qed.

(** The loop over the required agreements: with [u] the unaccepted ones, it
    confirms and records the first [k] of them; then either [u] is
    exhausted and the loop returns, or the next one is declined, which is
    the last thing the loop does. *)
Lemma agreements_loop_trace (E : Env) (lid cid ver : string)
      (accepted : list string) (summaries : list AgreementSummary) (w : World) :
  let u := filter (fun a => negb (str_mem (as_id a) accepted)) summaries in
  let prompt := fun a => cleanse (ag_prompt (agreement_of E lid ver (as_id a))) in
  let record := fun a => mkAccept (as_id a) lid cid
                                  (ag_signature (agreement_of E lid ver (as_id a))) ver in
  let o := agreements_loop E lid cid ver accepted summaries w in
  exists k,
    k <= length u
    /\ recordings (log o) = map record (firstn k u)
    /\ ((k = length u /\ res o = Ok tt
         /\ confirmations (log o) = map (fun a => (prompt a, true)) u)
        \/ (exists a l,
               nth_error u k = Some a /\ res o = Raise Exception_
               /\ log o = l ++ [EConfirm (prompt a) false]
               /\ confirmations l = map (fun a => (prompt a, true)) (firstn k u))).
Proof.
  cbv zeta. revert w.
  induction summaries as [|a rest IH]; intros w.
  - exists 0. simpl. split; [lia|]. split; [reflexivity|].
    left. repeat split; reflexivity.
  - cbn [agreements_loop filter].
    destruct (negb (str_mem (as_id a) accepted)) eqn:Hacc.
    + unfold bind, emit, time_sleep, click_confirm. cbn [res world log app].
      set (w1 := with_confirms _ (with_clock _ w)).
      destruct (terminal_answer E _ _) eqn:Hans; cbn [negb res world log raise app].
      * destruct (IH w1) as [k [Hk [Hrec Hcases]]].
        exists (S k). cbn [length firstn map].
        split; [lia|]. split.
        { cbn [recordings flat_map app]. f_equal. exact Hrec. }
        destruct Hcases as [[Hkl [Hres Hconf]] | [a' [l [Hnth [Hres [Hlog Hconf]]]]]].
        { left. split; [lia|]. split; [exact Hres|].
          cbn [confirmations flat_map app]. f_equal. exact Hconf. }
        { right. exists a'.
          exists ([EGetAgreement lid ver (as_id a);
                   EOpenBrowser (ag_content_url (agreement_of E lid ver (as_id a)));
                   ESleep 2;
                   EConfirm (cleanse (ag_prompt (agreement_of E lid ver (as_id a)))) true;
                   ECreateAcceptedAgreement
                     (mkAccept (as_id a) lid cid
                               (ag_signature (agreement_of E lid ver (as_id a))) ver)]
                    ++ l).
          split; [exact Hnth|]. split; [exact Hres|]. split.
          - rewrite Hlog. reflexivity.
          - cbn [confirmations flat_map app]. f_equal. exact Hconf. }
      * exists 0. cbn [length firstn map nth_error]. split; [lia|].
        split; [reflexivity|]. right. exists a.
        exists [EGetAgreement lid ver (as_id a);
                EOpenBrowser (ag_content_url (agreement_of E lid ver (as_id a)));
                ESleep 2].
        repeat split; reflexivity.
    + rewrite ret_bind. apply IH.
Qed.

Lemma check_prerequisites_eq (E : Env) (ld : ListingDetails) (w : World) :
  let b := listing_base ld in
  let loop := agreements_loop E (listing_id b) (compartment_id b) (version b)
                (accepted_agreement_ids_of E (listing_id b) (compartment_id b))
                (agreement_summaries_of E (listing_id b) (version b)) w in
  check_prerequisites E ld w
  = mkOut (res loop) (world loop)
          ([EGetListing (listing_id b);
            EListAcceptedAgreements (listing_id b) (compartment_id b);
            EListAgreements (listing_id b) (version b)] ++ log loop).
Proof.
  cbv zeta. unfold check_prerequisites. rewrite collect_ids.
  unfold bind, emit. cbn [res world log app]. reflexivity.
Qed.

Lemma check_prerequisites_trace (E : Env) (ld : ListingDetails) (w : World) :
  exists k,
    k <= length (unaccepted E ld)
    /\ recordings (log (check_prerequisites E ld w))
       = map (acceptance_of E ld) (firstn k (unaccepted E ld))
    /\ ((k = length (unaccepted E ld)
         /\ res (check_prerequisites E ld w) = Ok tt
         /\ confirmations (log (check_prerequisites E ld w))
            = map (fun a => (shown_prompt E ld a, true)) (unaccepted E ld))
        \/ (exists a l,
               nth_error (unaccepted E ld) k = Some a
               /\ res (check_prerequisites E ld w) = Raise Exception_
               /\ log (check_prerequisites E ld w) = l ++ [EConfirm (shown_prompt E ld a) false]
               /\ confirmations l
                  = map (fun a => (shown_prompt E ld a, true))
                        (firstn k (unaccepted E ld)))).
Proof.
  rewrite check_prerequisites_eq. cbv zeta. cbn [res world log].
  set (b := listing_base ld).
  destruct (agreements_loop_trace E (listing_id b) (compartment_id b) (version b)
              (accepted_agreement_ids_of E (listing_id b) (compartment_id b))
              (agreement_summaries_of E (listing_id b) (version b)) w)
    as [k [Hk [Hrec Hcases]]].
  exists k. split; [exact Hk|]. split; [exact Hrec|].
  destruct Hcases as [[Hkl [Hres Hconf]] | [a [l [Hnth [Hres [Hlog Hconf]]]]]].
  - left. repeat split; assumption.
  - right. exists a.
    exists ([EGetListing (listing_id b);
             EListAcceptedAgreements (listing_id b) (compartment_id b);
             EListAgreements (listing_id b) (version b)] ++ l).
    split; [exact Hnth|]. split; [exact Hres|]. split.
    + rewrite Hlog. reflexivity.
    + exact Hconf.
Qed.

Lemma covers_required_unaccepted (E : Env) (ld : ListingDetails) :
  covers_required E ld -> unaccepted E ld = [].
Proof.
  unfold covers_required, unaccepted. cbv zeta.
  induction (agreement_summaries_of E _ _) as [|a l IH]; intros H; [reflexivity|].
  cbn [filter]. rewrite (H a (or_introl eq_refl)). cbn [negb].
  apply IH. intros a' Ha'. apply H. right. exact Ha'.
Qed.

(** C7: when the accepted list covers all required agreements the gate asks
    for no confirmation (and records nothing).  In general, with [u] the
    required agreements that are not accepted, in order, there is a [k]
    such that the gate recorded exactly the first [k] of them, each once,
    and either [k] is all of [u], the gate returned, and each agreement of
    [u] was confirmed once, or the [k]-th one was declined: it was asked
    once, after the [k] confirmed ones, the gate raised, and nothing was
    asked or recorded for it or for the agreements after it. *)
Theorem C7_gate_interactions :
  forall (E : Env) (ld : ListingDetails) (w : World),
    (covers_required E ld ->
     res (check_prerequisites E ld w) = Ok tt
     /\ confirmations (log (check_prerequisites E ld w)) = []
     /\ recordings (log (check_prerequisites E ld w)) = [])
    /\ exists k,
        k <= length (unaccepted E ld)
        /\ recordings (log (check_prerequisites E ld w))
           = map (acceptance_of E ld) (firstn k (unaccepted E ld))
        /\ ((k = length (unaccepted E ld)
             /\ res (check_prerequisites E ld w) = Ok tt
             /\ confirmations (log (check_prerequisites E ld w))
                = map (fun a => (shown_prompt E ld a, true)) (unaccepted E ld))
            \/ (exists a,
                   nth_error (unaccepted E ld) k = Some a
                   /\ res (check_prerequisites E ld w) = Raise Exception_
                   /\ confirmations (log (check_prerequisites E ld w))
                      = map (fun a => (shown_prompt E ld a, true))
                            (firstn k (unaccepted E ld))
                          ++ [(shown_prompt E ld a, false)])).
Proof.
  intros E ld w.
  destruct (check_prerequisites_trace E ld w) as [k [Hk [Hrec Hcases]]].
  split.
  - intros Hcov. apply covers_required_unaccepted in Hcov.
    rewrite Hcov in *. cbn [length] in Hk. assert (k = 0) by lia. subst k.
    destruct Hcases as [[_ [Hres Hconf]] | [a [l [Hnth _]]]]; [|discriminate].
    repeat split; assumption.
  - exists k. split; [exact Hk|]. split; [exact Hrec|].
    destruct Hcases as [Hall | [a [l [Hnth [Hres [Hlog Hconf]]]]]]; [left; exact Hall|].
    right. exists a. split; [exact Hnth|]. split; [exact Hres|].
    rewrite Hlog, confirmations_app, Hconf. reflexivity.
Qed.

(** Both required agreements are already accepted: no question is asked. *)
Lemma C7_gate_interactions_witness :
  res (check_prerequisites
         (Sample.with_accepted ["a2"; "a1"]
            (Sample.env (Sample.helm 0 Sample.listing_empty 0)
                        (fun _ => inr [Sample.ready_pod]) (fun _ => false)
                        Sample.details))
         Sample.details Sample.w0) = Ok tt
  /\ confirmations
       (log (check_prerequisites
               (Sample.with_accepted ["a2"; "a1"]
                  (Sample.env (Sample.helm 0 Sample.listing_empty 0)
                              (fun _ => inr [Sample.ready_pod]) (fun _ => false)
                              Sample.details))
               Sample.details Sample.w0)) = []
  /\ recordings
       (log (check_prerequisites
               (Sample.with_accepted ["a2"; "a1"]
                  (Sample.env (Sample.helm 0 Sample.listing_empty 0)
                              (fun _ => inr [Sample.ready_pod]) (fun _ => false)
                              Sample.details))
               Sample.details Sample.w0)) = [].
Proof.
  apply (proj1 (C7_gate_interactions
                  (Sample.with_accepted ["a2"; "a1"]
                     (Sample.env (Sample.helm 0 Sample.listing_empty 0)
                                 (fun _ => inr [Sample.ready_pod]) (fun _ => false)
                                 Sample.details))
                  Sample.details Sample.w0)).
  intros a [Ha|[Ha|[]]]; subst a; reflexivity.
Defined.

(** One of two required agreements is accepted, the other is confirmed and
    then recorded, or declined and not recorded. *)
Example gate_confirms_the_unaccepted_one :
  confirmations
    (log (check_prerequisites
            (Sample.env (Sample.helm 0 Sample.listing_empty 0)
                        (fun _ => inr [Sample.ready_pod]) (fun _ => true)
                        Sample.details)
            Sample.details Sample.w0)) = [("Do you accept a2?", true)]
  /\ recordings
       (log (check_prerequisites
               (Sample.env (Sample.helm 0 Sample.listing_empty 0)
                           (fun _ => inr [Sample.ready_pod]) (fun _ => true)
                           Sample.details)
               Sample.details Sample.w0))
     = [mkAccept "a2" "ocid1.listing" "ocid1.compartment" "sig-a2" "1.0"]
  /\ confirmations
       (log (check_prerequisites
               (Sample.env (Sample.helm 0 Sample.listing_empty 0)
                           (fun _ => inr [Sample.ready_pod]) (fun _ => false)
                           Sample.details)
               Sample.details Sample.w0)) = [("Do you accept a2?", false)]
  /\ recordings
       (log (check_prerequisites
               (Sample.env (Sample.helm 0 Sample.listing_empty 0)
                           (fun _ => inr [Sample.ready_pod]) (fun _ => false)
                           Sample.details)
               Sample.details Sample.w0)) = [].
Proof. repeat split; reflexivity. Qed.

(** A declined confirmation makes the gate raise, and is the last thing it
    does; every confirmation before it was answered yes. *)
Lemma declined_confirmation_is_last (E : Env) (ld : ListingDetails) (w : World)
      (prompt : string) :
  In (prompt, false) (confirmations (log (check_prerequisites E ld w))) ->
  res (check_prerequisites E ld w) = Raise Exception_
  /\ exists l,
      log (check_prerequisites E ld w) = l ++ [EConfirm prompt false]
      /\ Forall (fun pa => snd pa = true) (confirmations l).
Proof.
  intros Hin.
  destruct (check_prerequisites_trace E ld w) as [k [Hk [Hrec Hcases]]].
  assert (Hyes : forall us, Forall (fun pa : string * bool => snd pa = true)
                                   (map (fun a => (shown_prompt E ld a, true)) us)).
  { intros us. apply Forall_forall. intros pa Hpa. apply in_map_iff in Hpa.
    destruct Hpa as [a [Heq _]]. subst pa. reflexivity. }
  destruct Hcases as [[_ [_ Hconf]] | [a [l [Hnth [Hres [Hlog Hconf]]]]]].
  - exfalso. rewrite Hconf in Hin. specialize (Hyes (unaccepted E ld)).
    rewrite Forall_forall in Hyes. apply Hyes in Hin. discriminate.
  - split; [exact Hres|]. exists l.
    rewrite Hlog, confirmations_app, Hconf in Hin. apply in_app_or in Hin.
    destruct Hin as [Hin|[Heq|[]]].
    + exfalso. specialize (Hyes (firstn k (unaccepted E ld))).
      rewrite Forall_forall in Hyes. apply Hyes in Hin. discriminate.
    + inversion Heq; subst. split; [exact Hlog|].
      rewrite Hconf. apply Hyes.
Qed.

(** C8, amended: whenever a required agreement is declined at the
    confirmation, the gate fails by raising a bare [Exception] (there is no
    error class of its own), and without retry: the declined confirmation is
    the last thing the gate does, and every confirmation before it was
    answered yes. *)
Theorem C8_decline_raises_bare_exception :
  forall (E : Env) (ld : ListingDetails) (w : World) (prompt : string),
    In (prompt, false) (confirmations (log (check_prerequisites E ld w))) ->
    res (check_prerequisites E ld w) = Raise Exception_
    /\ exists l,
        log (check_prerequisites E ld w) = l ++ [EConfirm prompt false]
        /\ Forall (fun pa => snd pa = true) (confirmations l).
Proof.
  intros E ld w prompt Hin. now apply declined_confirmation_is_last.
Qed.

(** The unaccepted agreement ["a2"] is declined. *)
Lemma C8_decline_raises_bare_exception_witness :
  res (check_prerequisites
         (Sample.env (Sample.helm 0 Sample.listing_empty 0)
                     (fun _ => inr [Sample.ready_pod]) (fun _ => false)
                     Sample.details)
         Sample.details Sample.w0) = Raise Exception_.
Proof.
  apply (C8_decline_raises_bare_exception
           (Sample.env (Sample.helm 0 Sample.listing_empty 0)
                       (fun _ => inr [Sample.ready_pod]) (fun _ => false)
                       Sample.details)
           Sample.details Sample.w0 "Do you accept a2?").
  left. reflexivity.
Defined.

(** C8 as stated fails: the error of a declined agreement is of the generic
    class [Exception], not of a class [AgreementRejected]. *)
Lemma C8_decline_is_not_a_distinguished_error :
  exists e,
    confirmations
      (log (check_prerequisites
              (Sample.env (Sample.helm 0 Sample.listing_empty 0)
                          (fun _ => inr [Sample.ready_pod]) (fun _ => false)
                          Sample.details)
              Sample.details Sample.w0)) = [("Do you accept a2?", false)]
    /\ res (check_prerequisites
              (Sample.env (Sample.helm 0 Sample.listing_empty 0)
                          (fun _ => inr [Sample.ready_pod]) (fun _ => false)
                          Sample.details)
              Sample.details Sample.w0) = Raise e
    /\ exn_class e = "Exception"
    /\ exn_class e <> "AgreementRejected".
Proof.
  exists Exception_. repeat split; try reflexivity. discriminate.
Qed.

(** ** The gate and the deployment run *)




(** ** The entry point *)





Lemma runtime_map_lookup (E : Env) (key : string) :
  assoc_get key (_RUNTIME_RUN_MAP E)
  = if String.eqb (python_runtime_type E) key then Some (_run_with_python E) else None.
Proof. reflexivity. Qed.



(** * Further properties *)

(** ** The prompt cleaner *)

Lemma rev_onto_length (buf : list ascii) (s : string) :
  String.length (rev_onto buf s) = length buf + String.length s.
Proof.
  revert s. induction buf as [|c buf IH]; intros s; simpl; [reflexivity|].
  rewrite IH. simpl. lia.
Qed.

(** A pending text without [>] and line break does not close a tag, and
    leaves a [<] open when it holds one or one was open. *)
Lemma has_tag_rev_onto (buf : list ascii) (s : string) (opened : bool) :
  Forall (fun c => Ascii.eqb c ">" = false /\ Ascii.eqb c newline = false) buf ->
  has_tag_from opened (rev_onto buf s)
  = has_tag_from (opened || existsb (fun c => Ascii.eqb c "<") buf) s.
Proof.
  revert s. induction buf as [|c buf IH]; intros s Hbuf; simpl.
  - now rewrite orb_false_r.
  - inversion Hbuf as [|? ? [Hgt Hnl] Hrest]; subst.
    rewrite (IH _ Hrest). simpl. rewrite Hnl, Hgt.
    destruct (Ascii.eqb c "<"); simpl.
    + now rewrite orb_true_r.
    + reflexivity.
Qed.

Lemma cleanse_from_untagged (s : string) :
  (has_tag_from false s = false -> cleanse_from None s = s)
  /\ (forall buf, has_tag_from true s = false ->
                  cleanse_from (Some buf) s = rev_onto buf s).
Proof.
  induction s as [|c s [IHn IHp]]; simpl.
  - split; [reflexivity | intros; reflexivity].
  - destruct (Ascii.eqb c newline) eqn:Hnl.
    + assert (Hlt : Ascii.eqb c "<" = false).
      { apply Ascii.eqb_eq in Hnl. subst c. reflexivity. }
      assert (Hgt : Ascii.eqb c ">" = false).
      { apply Ascii.eqb_eq in Hnl. subst c. reflexivity. }
      rewrite Hlt, Hgt. split.
      * intros H. now rewrite IHn.
      * intros buf H. simpl. now rewrite IHn.
    + destruct (Ascii.eqb c ">") eqn:Hgt.
      * assert (Hlt : Ascii.eqb c "<" = false).
        { apply Ascii.eqb_eq in Hgt. subst c. reflexivity. }
        rewrite Hlt. split; [intros H; now rewrite IHn | discriminate].
      * destruct (Ascii.eqb c "<") eqn:Hlt.
        -- split.
           ++ intros H. rewrite (IHp [c] H). reflexivity.
           ++ intros buf H. rewrite (IHp (c :: buf) H). reflexivity.
        -- split.
           ++ intros H. now rewrite IHn.
           ++ intros buf H. rewrite (IHp (c :: buf) H). reflexivity.
Qed.

Lemma cleanse_from_has_no_tag (s : string) :
  has_tag_from false (cleanse_from None s) = false
  /\ (forall buf,
         Forall (fun c => Ascii.eqb c ">" = false /\ Ascii.eqb c newline = false) buf ->
         has_tag_from false (cleanse_from (Some buf) s) = false).
Proof.
  induction s as [|c s [IHn IHp]]; simpl.
  - split; [reflexivity|]. intros buf Hbuf.
    rewrite (has_tag_rev_onto buf EmptyString false Hbuf). reflexivity.
  - split.
    + destruct (Ascii.eqb c "<") eqn:Hlt.
      * apply IHp. constructor; [|constructor].
        apply Ascii.eqb_eq in Hlt. subst c. split; reflexivity.
      * simpl. destruct (Ascii.eqb c newline); [exact IHn|].
        destruct (Ascii.eqb c ">"); [exact IHn|]. rewrite Hlt. exact IHn.
    + intros buf Hbuf. destruct (Ascii.eqb c ">") eqn:Hgt; [exact IHn|].
      destruct (Ascii.eqb c newline) eqn:Hnl.
      * simpl. rewrite (has_tag_rev_onto buf _ false Hbuf). simpl.
        rewrite Hnl. exact IHn.
      * apply IHp. constructor; [split; assumption | exact Hbuf].
Qed.

Lemma cleanse_from_length (s : string) :
  (String.length (cleanse_from None s) <= String.length s
   /\ (has_tag_from false s = true ->
       String.length (cleanse_from None s) < String.length s))
  /\ (forall buf,
         String.length (cleanse_from (Some buf) s) <= length buf + String.length s
         /\ (has_tag_from true s = true ->
             String.length (cleanse_from (Some buf) s) < length buf + String.length s)).
Proof.
  induction s as [|c s [[IHn IHn'] IHp]]; simpl.
  - split; [split; [lia | discriminate]|].
    intros buf. rewrite rev_onto_length. simpl. split; [lia | discriminate].
  - split.
    + destruct (Ascii.eqb c "<") eqn:Hlt.
      * assert (Hnl : Ascii.eqb c newline = false).
        { apply Ascii.eqb_eq in Hlt. subst c. reflexivity. }
        assert (Hgt : Ascii.eqb c ">" = false).
        { apply Ascii.eqb_eq in Hlt. subst c. reflexivity. }
        rewrite Hnl, Hgt. destruct (IHp [c]) as [Hle Hlt']. simpl in Hle, Hlt'.
        split; [lia|]. intros H. specialize (Hlt' H). lia.
      * simpl. split; [lia|].
        destruct (Ascii.eqb c newline); [intros H; specialize (IHn' H); lia|].
        destruct (Ascii.eqb c ">"); intros H; specialize (IHn' H); lia.
    + intros buf. destruct (Ascii.eqb c ">") eqn:Hgt.
      * assert (Hnl : Ascii.eqb c newline = false).
        { apply Ascii.eqb_eq in Hgt. subst c. reflexivity. }
        rewrite Hnl. split; intros; lia.
      * destruct (Ascii.eqb c newline) eqn:Hnl.
        -- rewrite rev_onto_length. simpl. split; [lia|].
           intros H. specialize (IHn' H). lia.
        -- destruct (IHp (c :: buf)) as [Hle Hlt']. simpl in Hle, Hlt'.
           destruct (Ascii.eqb c "<"); split; try lia; intros H;
             specialize (Hlt' H); lia.
Qed.

(** X1: cleaning a prompt twice is the same as cleaning it once: the cleaned
    prompt holds no tag any more. *)
Theorem X1_cleanse_idempotent :
  forall prompt : string,
    has_tag (cleanse prompt) = false
    /\ cleanse (cleanse prompt) = cleanse prompt.
Proof.
  intros prompt. unfold has_tag, cleanse.
  destruct (cleanse_from_has_no_tag prompt) as [H _].
  split; [exact H|].
  now apply (proj1 (cleanse_from_untagged (cleanse_from None prompt))).
Qed.

(** X2: a prompt is returned unchanged exactly when it holds no tag; a prompt
    with a tag comes back strictly shorter, and no prompt comes back longer. *)
Theorem X2_cleanse_changes_only_tagged_prompts :
  forall prompt : string,
    (cleanse prompt = prompt <-> has_tag prompt = false)
    /\ (has_tag prompt = true ->
        String.length (cleanse prompt) < String.length prompt)
    /\ String.length (cleanse prompt) <= String.length prompt.
Proof.
  intros prompt. unfold has_tag, cleanse.
  destruct (cleanse_from_length prompt) as [[Hle Hlt] _].
  split; [|split; assumption].
  split.
  - intros Heq. destruct (has_tag_from false prompt) eqn:Htag; [|reflexivity].
    specialize (Hlt eq_refl). rewrite Heq in Hlt. lia.
  - apply (proj1 (cleanse_from_untagged prompt)).
Qed.

Lemma X2_cleanse_changes_only_tagged_prompts_witness :
  String.length (cleanse "Do you <b>accept</b> the terms?")
  < String.length "Do you <b>accept</b> the terms?".
Proof.
  apply (proj1 (proj2 (X2_cleanse_changes_only_tagged_prompts
                         "Do you <b>accept</b> the terms?"))).
  reflexivity.
Defined.

Lemma cleanse_from_text (a s : string) :
  all_chars (fun c => negb (Ascii.eqb c "<")) a = true ->
  cleanse_from None (a ++ s) = (a ++ cleanse_from None s)%string.
Proof.
  induction a as [|c a IH]; simpl; [reflexivity|].
  intros H. apply andb_true_iff in H. destruct H as [Hc Ha].
  apply negb_true_iff in Hc. rewrite Hc, (IH Ha). reflexivity.
Qed.

Lemma cleanse_from_tag_body (t b : string) (buf : list ascii) :
  all_chars (fun c => negb (Ascii.eqb c ">") && negb (Ascii.eqb c newline)) t = true ->
  cleanse_from (Some buf) (t ++ String ">" b) = cleanse_from None b.
Proof.
  revert buf. induction t as [|c t IH]; intros buf; simpl; [reflexivity|].
  intros H. apply andb_true_iff in H. destruct H as [Hc Ht].
  apply andb_true_iff in Hc. destruct Hc as [Hgt Hnl].
  apply negb_true_iff in Hgt, Hnl. rewrite Hgt, Hnl. now apply IH.
Qed.

(** X3: a tag, from its [<] to the next [>] on the same line, is removed
    together with everything between them, the text before it is kept, and
    the text after it is cleaned in turn. *)
Theorem X3_cleanse_removes_a_tag :
  forall before inside after : string,
    all_chars (fun c => negb (Ascii.eqb c "<")) before = true ->
    all_chars (fun c => negb (Ascii.eqb c ">") && negb (Ascii.eqb c newline)) inside = true ->
    cleanse (before ++ String "<" (inside ++ String ">" after))
    = (before ++ cleanse after)%string.
Proof.
  intros before inside after Hb Hi. unfold cleanse.
  rewrite (cleanse_from_text _ _ Hb). f_equal. simpl.
  now apply cleanse_from_tag_body.
Qed.

Lemma X3_cleanse_removes_a_tag_witness :
  cleanse ("Accept " ++ String "<" ("a href='x<y'" ++ String ">" "terms</a>?"))
  = ("Accept " ++ cleanse "terms</a>?")%string.
Proof.
  apply (X3_cleanse_removes_a_tag "Accept " "a href='x<y'" "terms</a>?");
    reflexivity.
Defined.

(** ** The values file *)

Lemma assoc_get_filter_other {V} (k p : string) (d : list (string * V)) :
  p <> k ->
  assoc_get p (filter (fun kv => negb (String.eqb (fst kv) k)) d) = assoc_get p d.
Proof.
  intros Hne. induction d as [|[k' v] d IH]; [reflexivity|].
  simpl. destruct (String.eqb k' k) eqn:Hk; simpl.
  - apply String.eqb_eq in Hk. subst k'.
    destruct (String.eqb k p) eqn:Hp; [|exact IH].
    apply String.eqb_eq in Hp. congruence.
  - rewrite IH. reflexivity.
Qed.

Lemma assoc_get_set_other (k v p : string) (d : list (string * string)) :
  p <> k -> assoc_get p (assoc_set k v d) = assoc_get p d.
Proof.
  intros Hne. unfold assoc_set. simpl.
  destruct (String.eqb k p) eqn:Hp.
  - apply String.eqb_eq in Hp. congruence.
  - now apply assoc_get_filter_other.
Qed.

Lemma assoc_get_del_other (k p : string) (d : list (string * string)) :
  p <> k -> assoc_get p (assoc_del k d) = assoc_get p d.
Proof. intros Hne. unfold assoc_del. now apply assoc_get_filter_other. Qed.

(** X4: writing the values file and deleting it again compose to a clean
    state: the file is written under the temporary directory with the given
    content, every other file is left as it was, the deletion reports that
    it removed the file, and afterwards the path does not exist while every
    other path reads as before the write. *)
Theorem X4_values_file_written_then_removed :
  forall (E : Env) (helm_values : string) (w : World),
    res (_save_helm_value_to_yaml E helm_values w)
    = Ok (os_path_join (tempdir_name E) "values.yaml")
    /\ assoc_get (os_path_join (tempdir_name E) "values.yaml")
                 (files (world (_save_helm_value_to_yaml E helm_values w)))
       = Some helm_values
    /\ (forall p,
           p <> os_path_join (tempdir_name E) "values.yaml" ->
           assoc_get p (files (world (_save_helm_value_to_yaml E helm_values w)))
           = assoc_get p (files w))
    /\ res (_delete_temp_file (os_path_join (tempdir_name E) "values.yaml")
              (world (_save_helm_value_to_yaml E helm_values w))) = Ok true
    /\ (forall p,
           assoc_get p
             (files (world (_delete_temp_file
                              (os_path_join (tempdir_name E) "values.yaml")
                              (world (_save_helm_value_to_yaml E helm_values w)))))
           = if String.eqb p (os_path_join (tempdir_name E) "values.yaml")
             then None
             else assoc_get p (files w)).
Proof.
  intros E helm_values w.
  set (path := os_path_join (tempdir_name E) "values.yaml").
  assert (Hsave : _save_helm_value_to_yaml E helm_values w
                  = mkOut (Ok path)
                          (with_files (assoc_set path helm_values (files w)) w)
                          [EWriteFile path helm_values]) by reflexivity.
  rewrite Hsave. cbn [res world files with_files].
  assert (Hex : file_exists path
                  (with_files (assoc_set path helm_values (files w)) w) = true).
  { unfold file_exists. cbn [files with_files]. now rewrite assoc_get_set. }
  rewrite delete_temp_file_eq, Hex. cbn [res world files with_files].
  split; [reflexivity|]. split; [apply assoc_get_set|].
  split; [intros p Hp; now apply assoc_get_set_other|].
  split; [reflexivity|].
  intros p. destruct (String.eqb p path) eqn:Hp.
  - apply String.eqb_eq in Hp. subst p. apply assoc_get_del.
  - apply String.eqb_neq in Hp.
    rewrite assoc_get_del_other by exact Hp. now apply assoc_get_set_other.
Qed.

(** X5: [_delete_temp_file] returns whether the file existed; afterwards the
    path does not exist and every other path reads as before; it logs a
    removal only when there was a file, and a second call returns [False]. *)
Theorem X5_delete_temp_file_contract :
  forall (temp_file : string) (w : World),
    res (_delete_temp_file temp_file w) = Ok (file_exists temp_file w)
    /\ file_exists temp_file (world (_delete_temp_file temp_file w)) = false
    /\ (forall p,
           p <> temp_file ->
           assoc_get p (files (world (_delete_temp_file temp_file w)))
           = assoc_get p (files w))
    /\ log (_delete_temp_file temp_file w)
       = (if file_exists temp_file w then [ERemoveFile temp_file] else [])
    /\ _delete_temp_file temp_file (world (_delete_temp_file temp_file w))
       = mkOut (Ok false) (world (_delete_temp_file temp_file w)) [].
Proof.
  intros temp_file w.
  assert (Hgone : file_exists temp_file (world (_delete_temp_file temp_file w)) = false).
  { rewrite delete_temp_file_eq.
    destruct (file_exists temp_file w) eqn:Hex; cbn [world]; [|exact Hex].
    unfold file_exists. cbn [files with_files]. now rewrite assoc_get_del. }
  split; [|split; [exact Hgone | split; [|split]]].
  - rewrite delete_temp_file_eq. destruct (file_exists temp_file w); reflexivity.
  - intros p Hp. rewrite delete_temp_file_eq.
    destruct (file_exists temp_file w); cbn [world files with_files]; [|reflexivity].
    now apply assoc_get_del_other.
  - rewrite delete_temp_file_eq. destruct (file_exists temp_file w); reflexivity.
  - rewrite (delete_temp_file_eq temp_file (world (_delete_temp_file temp_file w))).
    rewrite Hgone. reflexivity.
Qed.

(** ** The entry point, step by step *)

Lemma run_selected (E : Env) (self : Backend) :
  selected_runtime E self = python_runtime_type E ->
  assoc_get (selected_runtime E self) (_RUNTIME_RUN_MAP E) = Some (_run_with_python E).
Proof. intros H. rewrite runtime_map_lookup, H, String.eqb_refl. reflexivity. Qed.

Lemma run_not_selected (E : Env) (self : Backend) :
  selected_runtime E self <> python_runtime_type E ->
  assoc_get (selected_runtime E self) (_RUNTIME_RUN_MAP E) = None.
Proof.
  intros H. rewrite runtime_map_lookup.
  destruct (String.eqb (python_runtime_type E) (selected_runtime E self)) eqn:Heq;
    [|reflexivity].
  apply String.eqb_eq in Heq. congruence.
Qed.

(** X6: what [run] does besides its runtime function.  With a runtime type
    other than the python one it raises [RuntimeError] before anything
    happens.  When it has to load the operator information and the loader
    raises, it passes that exception on and the runtime function is not
    started.  Otherwise its log is the loading (only when the backend had no
    operator information) followed by the log of the runtime function, and
    it ends in the world the runtime function ended in. *)
Theorem X6_run_footprint :
  forall (E : Env) (self : Backend) (w : World),
    (selected_runtime E self <> python_runtime_type E ->
     exists msg, run E self w = mkOut (Raise (RuntimeError msg)) w [])
    /\ (forall e,
           selected_runtime E self = python_runtime_type E ->
           loader_failure E self = Some e ->
           run E self w = mkOut (Raise e) w [ELoadOperator (operator_type self)])
    /\ (selected_runtime E self = python_runtime_type E ->
        loader_failure E self = None ->
        log (run E self w) = loader_events self ++ log (_run_with_python E w)
        /\ world (run E self w) = world (_run_with_python E w)).
Proof.
  intros E self w. split; [|split].
  - intros Hsel. apply run_not_selected in Hsel.
    unfold run, run_over. fold (selected_runtime E self). rewrite Hsel.
    eexists. reflexivity.
  - intros e Hsel Hload. apply run_selected in Hsel.
    unfold run, run_over. fold (selected_runtime E self). rewrite Hsel.
    unfold loader_failure in Hload.
    destruct (operator_info self); [discriminate|].
    rewrite Hload. reflexivity.
  - intros Hsel Hload. apply run_selected in Hsel.
    unfold run, run_over. fold (selected_runtime E self). rewrite Hsel.
    unfold loader_failure in Hload. unfold loader_events.
    destruct (operator_info self).
    + rewrite ret_bind. rewrite log_bind, world_bind.
      destruct (res (_run_with_python E w)) as [c| |]; cbn [app];
        rewrite ?app_nil_r; try (split; reflexivity).
      destruct (differs_from_zero c); cbn [log world raise ret];
        rewrite app_nil_r; split; reflexivity.
    + rewrite Hload. unfold bind, emit. cbn [res world log ret app].
      destruct (res (_run_with_python E w)) as [c| |]; cbn [res world log app];
        rewrite ?app_nil_r; try (split; reflexivity).
      destruct (differs_from_zero c); cbn [res world log raise ret];
        rewrite app_nil_r; split; reflexivity.
Qed.

(** A backend configured for another runtime, and one without operator
    information whose loader fails. *)
Lemma X6_run_footprint_witness :
  (exists msg,
      run (Sample.env (Sample.helm 0 Sample.listing_empty 0)
                      (fun _ => inr [Sample.ready_pod]) (fun _ => true) Sample.details)
          (mkBackend (Some "container") "feature_store" (Some "info") false)
          Sample.w0
      = mkOut (Raise (RuntimeError msg)) Sample.w0 [])
  /\ log (run (Sample.env (Sample.helm 0 Sample.listing_empty 0)
                          (fun _ => inr [Sample.ready_pod]) (fun _ => true)
                          (PlainListing (mkListing "l" "c" "1.0")))
              (mkBackend None "feature_store" None false)
              Sample.w0)
     = [ELoadOperator "feature_store"].
Proof.
  split.
  - apply (proj1 (X6_run_footprint
                    (Sample.env (Sample.helm 0 Sample.listing_empty 0)
                                (fun _ => inr [Sample.ready_pod]) (fun _ => true)
                                Sample.details)
                    (mkBackend (Some "container") "feature_store" (Some "info") false)
                    Sample.w0)).
    discriminate.
  - apply (proj1 (proj2 (proj2 (X6_run_footprint
                    (Sample.env (Sample.helm 0 Sample.listing_empty 0)
                                (fun _ => inr [Sample.ready_pod]) (fun _ => true)
                                (PlainListing (mkListing "l" "c" "1.0")))
                    (mkBackend None "feature_store" None false)
                    Sample.w0)) eq_refl eq_refl)).
Defined.

(** ** The environment variables of the cluster tools *)

Lemma app_split_after {A} (P : A -> Prop) (pre rest l1 l2 : list A) (e : A) :
  Forall (fun x => ~ P x) pre -> P e ->
  pre ++ rest = l1 ++ e :: l2 ->
  exists l1', l1 = pre ++ l1' /\ rest = l1' ++ e :: l2.
Proof.
  revert l1. induction pre as [|x pre IH]; intros l1 Hpre He Heq.
  - exists l1. split; [reflexivity | exact Heq].
  - inversion Hpre as [|? ? Hx Hrest]; subst.
    destruct l1 as [|y l1]; simpl in Heq.
    + inversion Heq; subst. contradiction.
    + inversion Heq; subst.
      destruct (IH l1 Hrest He H1) as [l1' [Hl1 Hr]].
      exists l1'. split; [now rewrite Hl1 | exact Hr].
Qed.










(** ** The existence probe and the install step: failures and the verb *)

Lemma probe_world (E : Env) (name : string) (kwargs : list (string * string))
      (w : World) :
  world (_check_if_chart_already_exist E name kwargs w) = w.
Proof.
  assert (H : keeps (fun w => w) (_check_if_chart_already_exist E name kwargs)).
  { unfold _check_if_chart_already_exist, _run_helm_list, subprocess_run, read_csv.
    keeps_all. }
  apply H.
Qed.

(** X8: how the probe fails.  It never changes the world.  Without a
    ["namespace"] keyword argument it raises [KeyError] and runs nothing.
    With one, an exception of the subprocess is passed on; a listing command
    that exits with a non-zero status makes it raise [TypeError]; an
    exception of the parser is passed on; and a table without a NAME column
    makes it raise [KeyError]. *)
Theorem X8_probe_failures :
  forall (E : Env) (name : string) (kwargs : list (string * string)) (w : World),
    world (_check_if_chart_already_exist E name kwargs w) = w
    /\ (assoc_get "namespace" kwargs = None ->
        _check_if_chart_already_exist E name kwargs w
        = mkOut (Raise (KeyError "namespace")) w [])
    /\ (forall ns,
           assoc_get "namespace" kwargs = Some ns ->
           (forall e,
               subprocess_result E (helm_list_cmd [("namespace", ns)]) = inl e ->
               res (_check_if_chart_already_exist E name kwargs w) = Raise e)
           /\ (forall p,
                  subprocess_result E (helm_list_cmd [("namespace", ns)]) = inr p ->
                  (returncode p <> 0%Z ->
                   res (_check_if_chart_already_exist E name kwargs w)
                   = Raise (TypeError "'NoneType' object is not subscriptable"))
                  /\ (forall e,
                         returncode p = 0%Z ->
                         pd_read_csv E (stdout p) = inl e ->
                         res (_check_if_chart_already_exist E name kwargs w) = Raise e)
                  /\ (forall frame,
                         returncode p = 0%Z ->
                         pd_read_csv E (stdout p) = inr frame ->
                         assoc_get "NAME" (df_columns frame) = None ->
                         res (_check_if_chart_already_exist E name kwargs w)
                         = Raise (KeyError "NAME")))).
Proof.
  intros E name kwargs w. split; [apply probe_world | split].
  - intros Hns. unfold _check_if_chart_already_exist, dict_getitem.
    rewrite Hns. reflexivity.
  - intros ns Hns.
    assert (Hprobe : _check_if_chart_already_exist E name kwargs w
                     = (helm_list <- _run_helm_list E [("namespace", ns)] ;;
                        match helm_list with
                        | None => raise (TypeError "'NoneType' object is not subscriptable")
                        | Some frame =>
                            names <- frame_getitem frame "NAME" ;;
                            ret (series_any (series_eq names name))
                        end) w).
    { unfold _check_if_chart_already_exist, dict_getitem. rewrite Hns.
      now rewrite ret_bind. }
    rewrite Hprobe.
    unfold _run_helm_list, subprocess_run, read_csv, frame_getitem, bind, emit.
    cbn [res world log].
    split.
    + intros e He. rewrite He. reflexivity.
    + intros p Hp. rewrite Hp. cbn [lift_sum ret res world log].
      split; [|split].
      * intros Hrc. apply Z.eqb_neq in Hrc. rewrite Hrc. reflexivity.
      * intros e Hrc He. rewrite Hrc, He. reflexivity.
      * intros frame Hrc Hf Hcol. rewrite Hrc, Hf. simpl. rewrite Hcol. reflexivity.
Qed.

(** The listing command fails with status 1; and it prints a table whose
    first column is not called NAME. *)
Lemma X8_probe_failures_witness :
  res (_check_if_chart_already_exist
         (Sample.env (Sample.helm 1 "" 0) (fun _ => inr []) (fun _ => true)
                     Sample.details)
         "demo" [("namespace", "ns1")] Sample.w0)
  = Raise (TypeError "'NoneType' object is not subscriptable")
  /\ res (_check_if_chart_already_exist
            (Sample.env (Sample.helm 0 (Sample.tabs ["RELEASE"; "NAMESPACE"]) 0)
                        (fun _ => inr []) (fun _ => true) Sample.details)
            "demo" [("namespace", "ns1")] Sample.w0)
     = Raise (KeyError "NAME")
  /\ _check_if_chart_already_exist
       (Sample.env (Sample.helm 0 Sample.listing_demo 0) (fun _ => inr [])
                   (fun _ => true) Sample.details)
       "demo" [("version", "1.0.0")] Sample.w0
     = mkOut (Raise (KeyError "namespace")) Sample.w0 [].
Proof.
  split; [|split].
  - apply (proj1 (proj2 (proj2 (proj2 (X8_probe_failures
             (Sample.env (Sample.helm 1 "" 0) (fun _ => inr []) (fun _ => true)
                         Sample.details)
             "demo" [("namespace", "ns1")] Sample.w0)) "ns1" eq_refl)
           (mkProc 1 "") eq_refl)).
    discriminate.
  - apply (proj2 (proj2 (proj2 (proj2 (proj2 (X8_probe_failures
             (Sample.env (Sample.helm 0 (Sample.tabs ["RELEASE"; "NAMESPACE"]) 0)
                         (fun _ => inr []) (fun _ => true) Sample.details)
             "demo" [("namespace", "ns1")] Sample.w0)) "ns1" eq_refl)
           (mkProc 0 (Sample.tabs ["RELEASE"; "NAMESPACE"])) eq_refl))
           (mkFrame [("RELEASE", []); ("NAMESPACE", [])]) eq_refl eq_refl eq_refl).
  - apply (proj1 (proj2 (X8_probe_failures
             (Sample.env (Sample.helm 0 Sample.listing_demo 0) (fun _ => inr [])
                         (fun _ => true) Sample.details)
             "demo" [("version", "1.0.0")] Sample.w0))).
    reflexivity.
Defined.

Lemma bind_ok_eq {A B} (m : M A) (f : A -> M B) (w : World) (a : A) :
  res (m w) = Ok a ->
  bind m f w = mkOut (res (f a (world (m w)))) (world (f a (world (m w))))
                     (log (m w) ++ log (f a (world (m w)))).
Proof. intros H. unfold bind. rewrite H. reflexivity. Qed.

Lemma install_step_after_probe (E : Env) (name chart : string)
      (kwargs : list (string * string)) (w : World) (present : bool)
      (probe_log : list event) :
  (forall w', _check_if_chart_already_exist E name kwargs w'
              = mkOut (Ok present) w' probe_log) ->
  _run_helm_install E name chart kwargs w
  = mkOut (completed
             (subprocess_result E
                (helm_install_cmd (if present then "upgrade" else "install")
                                  name chart kwargs)))
          (world (_set_kubernete_env w))
          (log (_set_kubernete_env w) ++ probe_log
             ++ [ESubprocess
                   (helm_install_cmd (if present then "upgrade" else "install")
                                     name chart kwargs)
                   (subprocess_result E
                      (helm_install_cmd (if present then "upgrade" else "install")
                                        name chart kwargs))]).
Proof.
  intros Hprobe. unfold _run_helm_install, subprocess_run, emit.
  rewrite (bind_ok_eq _ _ w tt) by reflexivity.
  rewrite (bind_ok_eq _ _ _ present) by (rewrite Hprobe; reflexivity).
  rewrite !Hprobe. cbn [res world log].
  unfold bind. cbn [res world log].
  destruct present; cbn [negb];
    destruct (subprocess_result E _); cbn [completed lift_sum raise ret res world log app];
    rewrite ?app_nil_r; reflexivity.
Qed.

(** X9: the verb follows the probe, and the exit status is a value.  When
    the listing of the namespace parses to a table with a NAME column, the
    install step runs the listing command for that namespace alone and then
    one command: [helm upgrade] when the release name is in the column,
    [helm install] when it is not.  What the step returns is that
    subprocess's result, whatever its exit status; only an exception of the
    subprocess itself is raised. *)
Theorem X9_install_or_upgrade :
  forall (E : Env) (name chart ns : string) (kwargs : list (string * string))
         (w : World) (p : CompletedProcess) (frame : DataFrame)
         (names : list cell),
    assoc_get "namespace" kwargs = Some ns ->
    subprocess_result E (helm_list_cmd [("namespace", ns)]) = inr p ->
    returncode p = 0%Z ->
    pd_read_csv E (stdout p) = inr frame ->
    assoc_get "NAME" (df_columns frame) = Some names ->
    (In (CStr name) names ->
     subprocess_calls (log (_run_helm_install E name chart kwargs w))
     = [["helm"; "list"; "--namespace"; ns];
        helm_install_cmd "upgrade" name chart kwargs]
     /\ res (_run_helm_install E name chart kwargs w)
        = completed (subprocess_result E (helm_install_cmd "upgrade" name chart kwargs)))
    /\ (~ In (CStr name) names ->
        subprocess_calls (log (_run_helm_install E name chart kwargs w))
        = [["helm"; "list"; "--namespace"; ns];
           helm_install_cmd "install" name chart kwargs]
        /\ res (_run_helm_install E name chart kwargs w)
           = completed (subprocess_result E (helm_install_cmd "install" name chart kwargs))).
Proof.
  intros E name chart ns kwargs w p frame names Hns Hp Hrc Hcsv Hcol.
  pose proof (fun w' => probe_on_frame E name ns kwargs w' p frame names
                                       Hns Hp Hrc Hcsv Hcol) as Hprobe.
  pose proof (series_any_In names name) as Hany.
  split.
  - intros Hin. apply Hany in Hin. rewrite Hin in Hprobe.
    rewrite (install_step_after_probe E name chart kwargs w true _ Hprobe).
    cbn [res log]. split; reflexivity.
  - intros Hnot.
    assert (Hfalse : series_any (series_eq names name) = false).
    { destruct (series_any (series_eq names name)) eqn:Hb; [|reflexivity].
      exfalso. apply Hnot, Hany. reflexivity. }
    rewrite Hfalse in Hprobe.
    rewrite (install_step_after_probe E name chart kwargs w false _ Hprobe).
    cbn [res log]. split; reflexivity.
Qed.

(** The release ["demo"] is listed and the upgrade exits with status 1. *)
Lemma X9_install_or_upgrade_witness :
  subprocess_calls
    (log (_run_helm_install
            (Sample.env (Sample.helm 0 Sample.listing_demo 1) (fun _ => inr [])
                        (fun _ => true) Sample.details)
            "demo" chart_ref [("namespace", "ns1")] Sample.w0))
  = [["helm"; "list"; "--namespace"; "ns1"];
     helm_install_cmd "upgrade" "demo" chart_ref [("namespace", "ns1")]]
  /\ res (_run_helm_install
            (Sample.env (Sample.helm 0 Sample.listing_demo 1) (fun _ => inr [])
                        (fun _ => true) Sample.details)
            "demo" chart_ref [("namespace", "ns1")] Sample.w0)
     = Ok (mkProc 1 "").
Proof.
  apply (proj1 (X9_install_or_upgrade
                  (Sample.env (Sample.helm 0 Sample.listing_demo 1) (fun _ => inr [])
                              (fun _ => true) Sample.details)
                  "demo" chart_ref "ns1" [("namespace", "ns1")] Sample.w0
                  (mkProc 0 Sample.listing_demo)
                  (mkFrame [("NAME", [CStr "demo"]); ("NAMESPACE", [CStr "ns1"]);
                            ("REVISION", [CStr "1"]);
                            ("UPDATED", [CStr "2023-10-01 10:00:00 +0000 UTC"]);
                            ("STATUS", [CStr "deployed"]);
                            ("CHART", [CStr "feature-store-dp-api-1.0.0"]);
                            ("APP VERSION", [CStr "1.0.0      "])])
                  [CStr "demo"] eq_refl eq_refl eq_refl eq_refl eq_refl)).
  left. reflexivity.
Defined.

(** ** The readiness poller, round by round *)

(** One round of the loop. *)
Lemma wait_loop_step (E : Env) (fuel : nat) (timeout_seconds sleep_time : Z)
      (ns pod_name : string) (start_time : Z) (w : World) :
  wait_loop E (S fuel) timeout_seconds sleep_time ns pod_name start_time w
  = match first_pod_state (pod_listing E (polls w) ns (selector_of pod_name)) with
    | Raise e => mkOut (Raise e) (with_polls (S (polls w)) w)
                       [EListPods ns (selector_of pod_name)]
    | Diverge => mkOut Diverge (with_polls (S (polls w)) w)
                       [EListPods ns (selector_of pod_name)]
    | Ok true => mkOut (Ok 0%Z) (with_polls (S (polls w)) w)
                       [EListPods ns (selector_of pod_name)]
    | Ok false =>
        if (clock w - start_time >=? timeout_seconds)%Z
        then mkOut (Ok (-1)%Z) (with_polls (S (polls w)) w)
                   [EListPods ns (selector_of pod_name)]
        else
          mkOut (res (wait_loop E fuel timeout_seconds sleep_time ns pod_name start_time
                                (with_clock (clock w + sleep_time)
                                            (with_polls (S (polls w)) w))))
                (world (wait_loop E fuel timeout_seconds sleep_time ns pod_name start_time
                                  (with_clock (clock w + sleep_time)
                                              (with_polls (S (polls w)) w))))
                (EListPods ns (selector_of pod_name) :: ESleep sleep_time
                   :: log (wait_loop E fuel timeout_seconds sleep_time ns pod_name
                                     start_time
                                     (with_clock (clock w + sleep_time)
                                                 (with_polls (S (polls w)) w))))
    end.
Proof.
  cbn [wait_loop]. fold (selector_of pod_name).
  unfold bind, list_namespaced_pod, first_pod_state. cbn [res world log].
  destruct (pod_listing E (polls w) ns (selector_of pod_name)) as [e|items];
    [reflexivity|].
  destruct items as [|pod rest]; cbn [list_first ret raise res world log app];
    [reflexivity|].
  unfold is_pod_ready.
  destruct (pod_conditions pod) as [conditions|]; cbn [ret raise res world log app];
    [|reflexivity].
  destruct (first_ready_condition conditions); cbn [ret res world log app];
    [reflexivity|].
  cbn [time_time res world log clock with_polls].
  destruct (clock w - start_time >=? timeout_seconds)%Z; cbn [ret res world log app];
    [reflexivity|].
  cbn [time_sleep res world log app clock with_polls]. reflexivity.
Qed.











Lemma bind_ext {A B} (m : M A) (f g : A -> M B) (w : World) :
  (forall a w', f a w' = g a w') -> bind m f w = bind m g w.
Proof.
  intros H. unfold bind. destruct (res (m w)); [|reflexivity|reflexivity].
  now rewrite H.
Qed.

Lemma first_pod_state_head_only (r : exn + list V1Pod) :
  first_pod_state (head_only r) = first_pod_state r.
Proof. destruct r as [e|[|pod rest]]; reflexivity. Qed.

Lemma wait_loop_first_pod_only (E E' : Env) (timeout_seconds sleep_time : Z)
      (ns pod_name : string) (start_time : Z) :
  (forall k, first_pod_state (pod_listing E' k ns (selector_of pod_name))
             = first_pod_state (pod_listing E k ns (selector_of pod_name))) ->
  forall (fuel : nat) (w : World),
    wait_loop E' fuel timeout_seconds sleep_time ns pod_name start_time w
    = wait_loop E fuel timeout_seconds sleep_time ns pod_name start_time w.
Proof.
  intros Hsame. induction fuel as [|fuel IH]; intros w; [reflexivity|].
  rewrite !wait_loop_step, Hsame.
  destruct (first_pod_state (pod_listing E (polls w) ns (selector_of pod_name)))
    as [[|]| |]; try reflexivity.
  rewrite IH. reflexivity.
Qed.

(** X13: only the first pod of a listing counts.  Cutting every listing
    down to its first pod changes nothing in what the poller returns, does
    and leaves behind. *)
Theorem X13_poller_reads_first_pod_only :
  forall (E E' : Env) (ns pod_name : string) (w : World),
    kube_config E' = kube_config E ->
    (forall k, pod_listing E' k ns (selector_of pod_name)
               = head_only (pod_listing E k ns (selector_of pod_name))) ->
    _wait_for_pod_ready E' ns pod_name w = _wait_for_pod_ready E ns pod_name w.
Proof.
  intros E E' ns pod_name w Hcfg Hhead.
  unfold _wait_for_pod_ready, wait_for_pod_ready_with, load_kube_config.
  rewrite Hcfg.
  apply bind_ext. intros _ w1. apply bind_ext. intros _ w2.
  apply bind_ext. intros t w3.
  apply wait_loop_first_pod_only.
  intros k. rewrite Hhead. apply first_pod_state_head_only.
Qed.

(** A not ready first pod hides a ready second one: with or without the
    second pod the poller times out. *)
Lemma X13_poller_reads_first_pod_only_witness :
  _wait_for_pod_ready
    (Sample.env (Sample.helm 0 Sample.listing_empty 0)
                (fun _ => inr [Sample.pending_pod]) (fun _ => true) Sample.details)
    "ns1" "demo" Sample.w0
  = _wait_for_pod_ready
      (Sample.env (Sample.helm 0 Sample.listing_empty 0)
                  (fun _ => inr [Sample.pending_pod; Sample.ready_pod])
                  (fun _ => true) Sample.details)
      "ns1" "demo" Sample.w0.
Proof.
  apply (X13_poller_reads_first_pod_only
           (Sample.env (Sample.helm 0 Sample.listing_empty 0)
                       (fun _ => inr [Sample.pending_pod; Sample.ready_pod])
                       (fun _ => true) Sample.details)
           (Sample.env (Sample.helm 0 Sample.listing_empty 0)
                       (fun _ => inr [Sample.pending_pod]) (fun _ => true)
                       Sample.details)
           "ns1" "demo" Sample.w0).
  - reflexivity.
  - intros k. reflexivity.
Defined.

(** ** The deployment run as a whole *)

Lemma install_step_emits (E : Env) (P : event -> Prop) (name chart : string)
      (kwargs : list (string * string)) :
  (forall k v, P (ESetEnv k v)) -> (forall argv r, P (ESubprocess argv r)) ->
  emits P (_run_helm_install E name chart kwargs).
Proof.
  intros He Hs. unfold _run_helm_install, subprocess_run.
  apply emits_bind; [apply set_kubernete_env_emits; exact He | intros _].
  apply emits_bind; [apply probe_emits; intros; apply Hs | intros present].
  emits_all. apply Hs.
Qed.

Lemma probe_calls_in_namespace (E : Env) (name ns : string)
      (kwargs : list (string * string)) (w : World) :
  assoc_get "namespace" kwargs = Some ns ->
  subprocess_calls (log (_check_if_chart_already_exist E name kwargs w))
  = [helm_list_cmd [("namespace", ns)]].
Proof.
  intros Hns. unfold _check_if_chart_already_exist, dict_getitem. rewrite Hns.
  rewrite ret_bind.
  unfold _run_helm_list, subprocess_run, read_csv, frame_getitem, bind; simpl.
  destruct (subprocess_result E (helm_list_cmd [("namespace", ns)])) as [e|p];
    simpl; [reflexivity|].
  destruct (returncode p =? 0)%Z; simpl; [|reflexivity].
  destruct (pd_read_csv E (stdout p)) as [e|frame]; simpl; [reflexivity|].
  destruct (assoc_get "NAME" (df_columns frame)); reflexivity.
Qed.

Lemma install_step_calls_in_namespace (E : Env) (name chart ns : string)
      (kwargs : list (string * string)) (w : World) (argv : list string) :
  assoc_get "namespace" kwargs = Some ns ->
  In argv (subprocess_calls (log (_run_helm_install E name chart kwargs w))) ->
  argv = helm_list_cmd [("namespace", ns)]
  \/ argv = helm_install_cmd "install" name chart kwargs
  \/ argv = helm_install_cmd "upgrade" name chart kwargs.
Proof.
  intros Hns Hin.
  destruct (install_step_calls E name chart kwargs w argv Hin) as [[ns' Hl]|Hrest];
    [|right; exact Hrest].
  left. subst argv. revert Hin.
  unfold _run_helm_install. rewrite log_bind.
  assert (Henv : res (_set_kubernete_env w) = Ok tt) by reflexivity.
  rewrite Henv, log_bind. rewrite !subprocess_calls_app.
  rewrite (probe_calls_in_namespace E name ns kwargs _ Hns).
  change (subprocess_calls (log (_set_kubernete_env w))) with (@nil (list string)).
  cbn [app]. intros [Heq|Hin]; [now rewrite Heq|].
  destruct (res (_check_if_chart_already_exist E name kwargs _)) as [present| |];
    [ | destruct Hin | destruct Hin ].
  unfold subprocess_run in Hin. rewrite log_bind in Hin.
  cbn [emit res world log app] in Hin.
  assert (Hl : forall r w', subprocess_calls (log (@lift_sum CompletedProcess r w')) = [])
    by (intros [e|p] w'; reflexivity).
  destruct Hin as [Heq|Hin].
  - exfalso. destruct present; discriminate Heq.
  - change (In (helm_list_cmd [("namespace", ns')])
               (subprocess_calls
                  (log (lift_sum
                          (subprocess_result E
                             (helm_install_cmd
                                (if negb present then "install" else "upgrade")
                                name chart kwargs))
                          (world (_check_if_chart_already_exist E name kwargs
                                    (world (_set_kubernete_env w)))))))) in Hin.
    rewrite Hl in Hin. destruct Hin.
Qed.

Lemma wait_for_pod_ready_fetches (E : Env) (ns pod_name : string) (w : World) :
  Forall (fun q => q = (ns, selector_of pod_name))
         (pod_fetches (log (_wait_for_pod_ready E ns pod_name w))).
Proof.
  assert (Hem : emits (fun e => match e with
                                | EListPods n s => (n, s) = (ns, selector_of pod_name)
                                | _ => True
                                end)
                      (_wait_for_pod_ready E ns pod_name)).
  { unfold _wait_for_pod_ready, wait_for_pod_ready_with, load_kube_config.
    apply emits_bind; [apply set_kubernete_env_emits; intros; exact I | intros _].
    apply emits_bind; [emits_all; exact I | intros _].
    apply emits_bind; [emits_all | intros t].
    induction (rounds (10 * 60) 20) as [|fuel IH]; cbn [wait_loop];
      [apply emits_diverge|].
    fold (selector_of pod_name). emits_all; try exact I; try reflexivity. exact IH. }
  specialize (Hem w).
  induction Hem as [|e l He _ IH]; [constructor|].
  destruct e; cbn [pod_fetches flat_map app]; try exact IH.
  constructor; [exact He | exact IH].
Qed.

(** X14: a run addresses only the release and the namespace of its listing
    details.  Every subprocess it runs is the listing of that namespace or
    the install or upgrade of that release with the fixed chart and the
    flags version, namespace and values (the file it wrote), and every pod
    listing is for that namespace and the release's instance label. *)
Theorem X14_run_addresses_its_release_only :
  forall (E : Env) (w : World) (b : MarketplaceListingDetails) (h : HelmFields),
    listing_details_of E = HelmListing b h ->
    (forall argv,
        In argv (subprocess_calls (log (_run_with_python E w))) ->
        argv = ["helm"; "list"; "--namespace"; namespace h]
        \/ (exists verb,
               (verb = "install" \/ verb = "upgrade")
               /\ argv = ["helm"; verb; helm_app_name h; chart_ref;
                          "--version"; "1.0.0";
                          "--namespace"; namespace h;
                          "--values"; os_path_join (tempdir_name E) "values.yaml"]))
    /\ Forall (fun q => q = (namespace h,
                             ("app.kubernetes.io/instance=" ++ helm_app_name h)%string))
              (pod_fetches (log (_run_with_python E w))).
Proof.
  intros E w b h Hld.
  rewrite (run_with_python_helm E w b h Hld). cbv zeta.
  set (inst := _run_helm_install E (helm_app_name h) chart_ref (install_kwargs E h)
                                 (world_with_values E h w)).
  set (del := _delete_temp_file (values_path E) (world inst)).
  set (poll := _wait_for_pod_ready E (namespace h) (helm_app_name h) (world del)).
  assert (Hcalls : forall argv,
             In argv (subprocess_calls (log inst)) ->
             argv = ["helm"; "list"; "--namespace"; namespace h]
             \/ (exists verb,
                    (verb = "install" \/ verb = "upgrade")
                    /\ argv = ["helm"; verb; helm_app_name h; chart_ref;
                               "--version"; "1.0.0";
                               "--namespace"; namespace h;
                               "--values"; os_path_join (tempdir_name E) "values.yaml"])).
  { intros argv Hin.
    destruct (install_step_calls_in_namespace E (helm_app_name h) chart_ref (namespace h)
                (install_kwargs E h) (world_with_values E h w) argv eq_refl Hin)
      as [Hl|[Hi|Hu]].
    - left. exact Hl.
    - right. exists "install". split; [left; reflexivity | exact Hi].
    - right. exists "upgrade". split; [right; reflexivity | exact Hu]. }
  assert (Hdel_calls : subprocess_calls (log del) = []).
  { unfold del. rewrite delete_temp_file_eq.
    destruct (file_exists (values_path E) (world inst)); reflexivity. }
  assert (Hdel_f : pod_fetches (log del) = []).
  { unfold del. rewrite delete_temp_file_eq.
    destruct (file_exists (values_path E) (world inst)); reflexivity. }
  assert (Hpoll_calls : subprocess_calls (log poll) = []).
  { apply no_subprocess_calls. apply wait_for_pod_ready_emits; intros; exact I. }
  assert (Hinst_f : pod_fetches (log inst) = []).
  { apply no_pod_fetches. apply install_step_emits; intros; exact I. }
  pose proof (wait_for_pod_ready_fetches E (namespace h) (helm_app_name h) (world del))
    as Hpoll_f. fold poll in Hpoll_f.
  destruct (res inst) as [st| |].
  - destruct (returncode st =? 0)%Z; cbn [log].
    + rewrite !subprocess_calls_app, !pod_fetches_app, Hdel_calls, Hpoll_calls,
        Hdel_f, Hinst_f.
      cbn [subprocess_calls pod_fetches flat_map app]. rewrite !app_nil_r.
      split; [exact Hcalls | exact Hpoll_f].
    + rewrite !subprocess_calls_app, !pod_fetches_app, Hdel_calls, Hdel_f, Hinst_f.
      cbn [subprocess_calls pod_fetches flat_map app]. rewrite !app_nil_r.
      split; [exact Hcalls | constructor].
  - cbn [log]. rewrite !subprocess_calls_app, !pod_fetches_app, Hinst_f.
    cbn [subprocess_calls pod_fetches flat_map app].
    split; [exact Hcalls | constructor].
  - cbn [log]. rewrite !subprocess_calls_app, !pod_fetches_app, Hinst_f.
    cbn [subprocess_calls pod_fetches flat_map app].
    split; [exact Hcalls | constructor].
Qed.

Lemma X14_run_addresses_its_release_only_witness :
  Forall (fun q => q = ("ns1", "app.kubernetes.io/instance=demo"))
         (pod_fetches
            (log (_run_with_python
                    (Sample.env (Sample.helm 0 Sample.listing_empty 0)
                                (fun _ => inr [Sample.pending_pod]) (fun _ => true)
                                Sample.details)
                    Sample.w0))).
Proof.
  apply (proj2 (X14_run_addresses_its_release_only
                  (Sample.env (Sample.helm 0 Sample.listing_empty 0)
                              (fun _ => inr [Sample.pending_pod]) (fun _ => true)
                              Sample.details)
                  Sample.w0
                  (mkListing "ocid1.listing" "ocid1.compartment" "1.0")
                  (mkHelm "replicas: 1" "demo" "ns1") eq_refl)).
Defined.

(** X15: the readiness of a pod is the status of its first condition of
    type [Ready]: later conditions, also later [Ready] ones, are not read,
    the status must be the string [True], a pod without a [Ready] condition
    is not ready, and a pod without a condition list makes the check raise
    [TypeError].  The check changes nothing. *)
Theorem X15_first_ready_condition_decides :
  forall (w : World) (before after : list V1PodCondition) (c : V1PodCondition),
    Forall (fun x => cond_type x <> "Ready") before ->
    (cond_type c = "Ready" ->
     is_pod_ready (mkPod (Some (before ++ c :: after))) w
     = mkOut (Ok (String.eqb (cond_status c) "True")) w [])
    /\ is_pod_ready (mkPod (Some before)) w = mkOut (Ok false) w []
    /\ is_pod_ready (mkPod None) w
       = mkOut (Raise (TypeError "'NoneType' object is not iterable")) w [].
Proof.
  intros w before after c Hbefore.
  unfold is_pod_ready. cbn [pod_conditions ret raise].
  split; [|split; [|reflexivity]].
  - intros Hc. f_equal. f_equal.
    induction Hbefore as [|x l Hx _ IH]; cbn [app first_ready_condition].
    + rewrite Hc. reflexivity.
    + apply String.eqb_neq in Hx. rewrite Hx. exact IH.
  - f_equal. f_equal.
    induction Hbefore as [|x l Hx _ IH]; cbn [first_ready_condition]; [reflexivity|].
    apply String.eqb_neq in Hx. rewrite Hx. exact IH.
Qed.

(** A first [Ready] condition with status [False] wins over a later one
    with status [True]. *)
Lemma X15_first_ready_condition_decides_witness :
  is_pod_ready
    (mkPod (Some ([mkCond "PodScheduled" "True"]
                    ++ mkCond "Ready" "False" :: [mkCond "Ready" "True"])))
    Sample.w0
  = mkOut (Ok false) Sample.w0 [].
Proof.
  assert (Hbefore : Forall (fun x => cond_type x <> "Ready")
                           [mkCond "PodScheduled" "True"]).
  { constructor; [discriminate | constructor]. }
  apply (proj1 (X15_first_ready_condition_decides
                  Sample.w0 [mkCond "PodScheduled" "True"] [mkCond "Ready" "True"]
                  (mkCond "Ready" "False") Hbefore)).
  reflexivity.
Defined.

Lemma install_step_returns_invocation (E : Env) (name chart : string)
      (kwargs : list (string * string)) (w : World) (st : CompletedProcess) :
  res (_run_helm_install E name chart kwargs w) = Ok st ->
  exists argv,
    In (ESubprocess argv (inr st)) (log (_run_helm_install E name chart kwargs w))
    /\ is_install_argv argv = true.
Proof.
  unfold _run_helm_install. rewrite res_bind, log_bind.
  assert (Henv : res (_set_kubernete_env w) = Ok tt) by reflexivity.
  rewrite Henv. rewrite res_bind, log_bind.
  destruct (res (_check_if_chart_already_exist E name kwargs _)) as [present| |];
    try discriminate.
  unfold subprocess_run. rewrite res_bind, log_bind. cbn [emit res world log].
  set (cmd := helm_install_cmd (if negb present then "install" else "upgrade")
                               name chart kwargs).
  destruct (subprocess_result E cmd) as [e|p]; cbn [lift_sum raise ret res];
    [discriminate|].
  intros Hst. inversion Hst; subst p. exists cmd. split.
  - apply in_or_app. right. apply in_or_app. right. left. reflexivity.
  - unfold cmd. destruct present; reflexivity.
Qed.

(** X16: the poller comes last.  Before the first pod listing of a run, an
    install or upgrade command has exited with status 0 and the values file
    has been removed. *)
Theorem X16_polling_follows_install_and_cleanup :
  forall (E : Env) (w : World) (l1 l2 : list event) (ns selector : string),
    log (_run_with_python E w) = l1 ++ EListPods ns selector :: l2 ->
    In (ERemoveFile (os_path_join (tempdir_name E) "values.yaml")) l1
    /\ exists argv p,
        In (ESubprocess argv (inr p)) l1
        /\ is_install_argv argv = true
        /\ returncode p = 0%Z.
Proof.
  intros E w l1 l2 ns selector Hlog.
  destruct (listing_details_of E) as [b|b h] eqn:Hld.
  { unfold _run_with_python in Hlog. rewrite Hld in Hlog. destruct l1; discriminate. }
  rewrite (run_with_python_helm E w b h Hld) in Hlog. cbv zeta in Hlog.
  set (inst := _run_helm_install E (helm_app_name h) chart_ref (install_kwargs E h)
                                 (world_with_values E h w)) in *.
  set (del := _delete_temp_file (values_path E) (world inst)) in *.
  set (poll := _wait_for_pod_ready E (namespace h) (helm_app_name h) (world del)) in *.
  assert (Hinst_q : Forall (fun x => ~ (fun e => ~ not_pod_fetch e) x) (log inst)).
  { eapply Forall_impl; [|apply (install_step_emits E not_pod_fetch); intros; exact I].
    intros e He Hn. exact (Hn He). }
  assert (Hex : file_exists (values_path E) (world inst) = true).
  { unfold file_exists. unfold inst. rewrite install_step_keeps_files.
    unfold world_with_values. cbn [files with_files]. now rewrite assoc_get_set. }
  assert (Hdel : log del = [ERemoveFile (values_path E)]).
  { unfold del. rewrite delete_temp_file_eq, Hex. reflexivity. }
  assert (Hfetch : ~ not_pod_fetch (EListPods ns selector)) by (intros H; exact H).
  assert (Hno : forall l, Forall (fun x => ~ (fun e => ~ not_pod_fetch e) x) l ->
                          l <> l1 ++ EListPods ns selector :: l2).
  { intros l Hl Heq. rewrite Heq in Hl. apply Forall_app in Hl. destruct Hl as [_ Hl].
    inversion Hl as [|? ? Hx _]; subst. apply Hx. exact Hfetch. }
  assert (Hpre : Forall (fun x => ~ (fun e => ~ not_pod_fetch e) x)
                        ([EWriteFile (values_path E) (helm_values h)]
                           ++ log inst ++ log del)).
  { apply Forall_app. split; [repeat constructor; intros H; apply H; exact I|].
    apply Forall_app. split; [exact Hinst_q|].
    rewrite Hdel. repeat constructor. intros H; apply H; exact I. }
  destruct (res inst) as [st| |] eqn:Hst.
  - destruct (returncode st =? 0)%Z eqn:Hz; cbn [log] in Hlog.
    + assert (Hlog' : ([EWriteFile (values_path E) (helm_values h)]
                         ++ log inst ++ log del) ++ log poll
                      = l1 ++ EListPods ns selector :: l2).
      { rewrite <- Hlog. rewrite <- !app_assoc. reflexivity. }
      destruct (app_split_after (fun e => ~ not_pod_fetch e) _ _ _ _ _
                                Hpre Hfetch Hlog') as [l1' [Hl1 _]].
      subst l1.
      destruct (install_step_returns_invocation E _ _ _ _ st Hst) as [argv [Hin Hargv]].
      split.
      * apply in_or_app. left. apply in_or_app. right. apply in_or_app. right.
        rewrite Hdel. left. reflexivity.
      * exists argv, st. split; [|split; [exact Hargv | now apply Z.eqb_eq]].
        apply in_or_app. left. apply in_or_app. right. apply in_or_app. left.
        exact Hin.
    + exfalso. apply (Hno _ Hpre). exact Hlog.
  - exfalso. cbn [log] in Hlog.
    refine (Hno _ _ Hlog). apply Forall_app. split; [|exact Hinst_q].
    repeat constructor. intros H; apply H; exact I.
  - exfalso. cbn [log] in Hlog.
    refine (Hno _ _ Hlog). apply Forall_app. split; [|exact Hinst_q].
    repeat constructor. intros H; apply H; exact I.
Qed.

Lemma X16_polling_follows_install_and_cleanup_witness :
  In (ERemoveFile "/tmp/tmpq1w2e3/values.yaml")
     [EWriteFile "/tmp/tmpq1w2e3/values.yaml" "replicas: 1";
      ESetEnv "OCI_CLI_AUTH" "security_token";
      ESetEnv "OCI_CLI_PROFILE" "SESSION_PROFILE";
      ESubprocess ["helm"; "list"; "--namespace"; "ns1"]
                  (inr (mkProc 0 Sample.listing_empty));
      ESubprocess (helm_install_cmd "install" "demo" chart_ref
                     [("version", "1.0.0"); ("namespace", "ns1");
                      ("values", "/tmp/tmpq1w2e3/values.yaml")])
                  (inr (mkProc 0 ""));
      ERemoveFile "/tmp/tmpq1w2e3/values.yaml";
      ESetEnv "OCI_CLI_AUTH" "security_token";
      ESetEnv "OCI_CLI_PROFILE" "SESSION_PROFILE";
      ELoadKubeConfig].
Proof.
  apply (X16_polling_follows_install_and_cleanup
           (Sample.env (Sample.helm 0 Sample.listing_empty 0)
                       (fun _ => inr [Sample.ready_pod]) (fun _ => true)
                       Sample.details)
           Sample.w0 _ [] "ns1" "app.kubernetes.io/instance=demo").
  reflexivity.
Defined.




(** ** The agreement gate, event by event *)

Lemma agreements_loop_log (E : Env) (lid cid ver : string)
      (accepted : list string) (summaries : list AgreementSummary) :
  forall w : World,
    exists k,
      k <= length (filter (fun a => negb (str_mem (as_id a) accepted)) summaries)
      /\ (forall i a,
             i < k ->
             nth_error (filter (fun a => negb (str_mem (as_id a) accepted)) summaries) i
             = Some a ->
             terminal_answer E (confirms w + i)
                             (cleanse (ag_prompt (agreement_of E lid ver (as_id a))))
             = true)
      /\ ((k = length (filter (fun a => negb (str_mem (as_id a) accepted)) summaries)
           /\ res (agreements_loop E lid cid ver accepted summaries w) = Ok tt
           /\ log (agreements_loop E lid cid ver accepted summaries w)
              = flat_map (fun a => asked_events E lid cid ver a true)
                         (filter (fun a => negb (str_mem (as_id a) accepted)) summaries))
          \/ (exists a,
                 nth_error (filter (fun a => negb (str_mem (as_id a) accepted)) summaries) k
                 = Some a
                 /\ terminal_answer E (confirms w + k)
                                    (cleanse (ag_prompt (agreement_of E lid ver (as_id a))))
                    = false
                 /\ res (agreements_loop E lid cid ver accepted summaries w)
                    = Raise Exception_
                 /\ log (agreements_loop E lid cid ver accepted summaries w)
                    = flat_map (fun a => asked_events E lid cid ver a true)
                               (firstn k (filter (fun a => negb (str_mem (as_id a) accepted))
                                                 summaries))
                        ++ asked_events E lid cid ver a false)).
Proof.
  induction summaries as [|a rest IH]; intros w.
  - exists 0. cbn [filter length flat_map agreements_loop ret res log].
    split; [lia|]. split; [intros i a' Hi; lia|].
    left. repeat split; reflexivity.
  - cbn [agreements_loop filter].
    destruct (negb (str_mem (as_id a) accepted)) eqn:Hacc.
    + unfold bind, emit, time_sleep, click_confirm. cbn [res world log app].
      cbn [confirms with_clock].
      set (w1 := with_confirms _ (with_clock _ w)).
      assert (Hc1 : confirms w1 = S (confirms w)) by reflexivity.
      destruct (terminal_answer E (confirms w) _) eqn:Hans;
        cbn [negb res world log raise app].
      * destruct (IH w1) as [k [Hk [Hyes Hcases]]].
        exists (S k). cbn [length firstn flat_map nth_error].
        split; [lia|]. split.
        { intros i a' Hi Hnth. destruct i as [|i].
          - cbn [nth_error] in Hnth. inversion Hnth; subst a'.
            rewrite Nat.add_0_r. exact Hans.
          - cbn [nth_error] in Hnth.
            replace (confirms w + S i) with (confirms w1 + i) by (rewrite Hc1; lia).
            apply Hyes; [lia | exact Hnth]. }
        destruct Hcases as [[Hkl [Hres Hlog]] | [a' [Hnth [Hno [Hres Hlog]]]]].
        { left. split; [lia|]. split; [exact Hres|].
          rewrite Hlog. reflexivity. }
        { right. exists a'. split; [exact Hnth|]. split.
          - replace (confirms w + S k) with (confirms w1 + k) by (rewrite Hc1; lia).
            exact Hno.
          - split; [exact Hres|]. rewrite Hlog.
            unfold asked_events at 3. cbn [app]. reflexivity. }
      * exists 0. cbn [length firstn flat_map nth_error app].
        split; [lia|]. split; [intros i a' Hi; lia|].
        right. exists a. rewrite Nat.add_0_r.
        repeat split; try reflexivity. exact Hans.
    + rewrite ret_bind. apply IH.
Qed.

(** X19: the gate, event by event.  After its three listing calls the gate
    takes the required agreements that are not accepted in order; for each
    it fetches the agreement, opens its terms in the browser, waits 2 s
    and asks; a yes is followed by the recording of the acceptance.  It
    stops at the first agreement that is answered no, which is also the last
    event, and raises; if none is, it returns.  Accepted agreements leave
    no event at all. *)
Theorem X19_gate_event_by_event :
  forall (E : Env) (ld : ListingDetails) (w : World),
    exists k,
      k <= length (unaccepted E ld)
      /\ (forall i a,
             i < k -> nth_error (unaccepted E ld) i = Some a ->
             terminal_answer E (confirms w + i) (shown_prompt E ld a) = true)
      /\ ((k = length (unaccepted E ld)
           /\ res (check_prerequisites E ld w) = Ok tt
           /\ log (check_prerequisites E ld w)
              = gate_header ld
                  ++ flat_map (fun a => asked_events E (listing_id (listing_base ld))
                                                     (compartment_id (listing_base ld))
                                                     (version (listing_base ld)) a true)
                              (unaccepted E ld))
          \/ (exists a,
                 nth_error (unaccepted E ld) k = Some a
                 /\ terminal_answer E (confirms w + k) (shown_prompt E ld a) = false
                 /\ res (check_prerequisites E ld w) = Raise Exception_
                 /\ log (check_prerequisites E ld w)
                    = gate_header ld
                        ++ flat_map (fun a => asked_events E (listing_id (listing_base ld))
                                                           (compartment_id (listing_base ld))
                                                           (version (listing_base ld)) a true)
                                    (firstn k (unaccepted E ld))
                        ++ asked_events E (listing_id (listing_base ld))
                                        (compartment_id (listing_base ld))
                                        (version (listing_base ld)) a false)).
Proof.
  intros E ld w. rewrite check_prerequisites_eq. cbv zeta. cbn [res log].
  unfold unaccepted, shown_prompt, gate_header. cbv zeta.
  set (b := listing_base ld).
  destruct (agreements_loop_log E (listing_id b) (compartment_id b) (version b)
              (accepted_agreement_ids_of E (listing_id b) (compartment_id b))
              (agreement_summaries_of E (listing_id b) (version b)) w)
    as [k [Hk [Hyes Hcases]]].
  exists k. split; [exact Hk|]. split; [exact Hyes|].
  destruct Hcases as [[Hkl [Hres Hlog]] | [a [Hnth [Hno [Hres Hlog]]]]].
  - left. split; [exact Hkl|]. split; [exact Hres|]. rewrite Hlog. reflexivity.
  - right. exists a. split; [exact Hnth|]. split; [exact Hno|].
    split; [exact Hres|]. rewrite Hlog. reflexivity.
Qed.




Lemma gate_prompts_cleansed (E : Env) (lid cid ver : string)
      (accepted : list string) (summaries : list AgreementSummary) :
  emits (fun e => match e with
                  | EConfirm prompt _ => has_tag prompt = false
                  | _ => True
                  end)
        (agreements_loop E lid cid ver accepted summaries).
Proof.
  induction summaries as [|a rest IH]; cbn [agreements_loop].
  - apply emits_ret.
  - emits_all; try exact I; try exact IH.
    apply (proj1 (cleanse_from_has_no_tag _)).
Qed.

(** X21: no question the gate puts to the user holds a tag: every prompt it
    confirms went through [cleanse]. *)
Theorem X21_gate_prompts_have_no_tags :
  forall (E : Env) (ld : ListingDetails) (w : World),
    Forall (fun pa => has_tag (fst pa) = false)
           (confirmations (log (check_prerequisites E ld w))).
Proof.
  intros E ld w. rewrite check_prerequisites_eq. cbv zeta. cbn [log].
  rewrite confirmations_app. cbn [confirmations flat_map app].
  fold (confirmations
          (log (agreements_loop E (listing_id (listing_base ld))
                  (compartment_id (listing_base ld)) (version (listing_base ld))
                  (accepted_agreement_ids_of E (listing_id (listing_base ld))
                                             (compartment_id (listing_base ld)))
                  (agreement_summaries_of E (listing_id (listing_base ld))
                                          (version (listing_base ld))) w))).
  pose proof (gate_prompts_cleansed E (listing_id (listing_base ld))
                (compartment_id (listing_base ld)) (version (listing_base ld))
                (accepted_agreement_ids_of E (listing_id (listing_base ld))
                                           (compartment_id (listing_base ld)))
                (agreement_summaries_of E (listing_id (listing_base ld))
                                        (version (listing_base ld))) w) as Hem.
  induction Hem as [|e l He _ IH]; [constructor|].
  destruct e; cbn [confirmations flat_map app]; try exact IH.
  constructor; [exact He | exact IH].
Qed.

(** ** The configuration sections *)

(** X22: the operator configuration is the configuration without the
    sections runtime, infrastructure and execution: looking up one of these
    three gives nothing, every other key reads as in the configuration, so
    the operator type is the configuration's ["type"] entry; and the
    entries that are kept stay in their order. *)
Theorem X22_operator_config_sections :
  forall (V : Type) (config : list (string * V)) (key : string),
    assoc_get key (operator_config_of config)
    = (if str_mem key backend_sections then None else assoc_get key config)
    /\ operator_type_of config = assoc_get "type" config
    /\ (forall before after : list (string * V),
           config = before ++ after ->
           operator_config_of config
           = operator_config_of before ++ operator_config_of after).
Proof.
  intros V.
  assert (Hget : forall (config : list (string * V)) key,
             assoc_get key (operator_config_of config)
             = (if str_mem key backend_sections then None else assoc_get key config)).
  { intros config key. unfold operator_config_of.
    induction config as [|[k v] config IH]; cbn [filter assoc_get fst].
    - now destruct (str_mem key backend_sections).
    - destruct (str_mem k backend_sections) eqn:Hk; cbn [negb assoc_get].
      + destruct (String.eqb k key) eqn:Hkey; [|exact IH].
        apply String.eqb_eq in Hkey. subst k. rewrite IH, Hk. reflexivity.
      + destruct (String.eqb k key) eqn:Hkey; [|exact IH].
        apply String.eqb_eq in Hkey. subst k. rewrite Hk. reflexivity. }
  intros config key. split; [apply Hget | split].
  - unfold operator_type_of. rewrite Hget. reflexivity.
  - intros before after ->. unfold operator_config_of. apply filter_app.
Qed.

(** ** The exported images *)

Lemma key_eqb_eq (a b : string * string) : key_eqb a b = true <-> a = b.
Proof.
  destruct a as [a1 a2], b as [b1 b2]. unfold key_eqb. cbn [fst snd].
  rewrite andb_true_iff, !String.eqb_eq. split.
  - intros [-> ->]. reflexivity.
  - intros H. inversion H. split; reflexivity.
Qed.

Lemma existsb_key_In (k : string * string) (l : list (string * string)) :
  existsb (key_eqb k) l = true <-> In k l.
Proof.
  rewrite existsb_exists. split.
  - intros [x [Hin Heq]]. apply key_eqb_eq in Heq. now subst.
  - intros Hin. exists k. split; [exact Hin | now apply key_eqb_eq].
Qed.

Lemma key_set_In (k : string * string) (l : list (string * string)) :
  In k (key_set l) <-> In k l.
Proof.
  induction l as [|x l IH]; cbn [key_set]; [reflexivity|].
  destruct (existsb (key_eqb x) l) eqn:Hx.
  - rewrite IH. apply (proj1 (existsb_key_In _ _)) in Hx. split; [now right|].
    intros [Heq|Hin]; [now subst | exact Hin].
  - cbn [In]. rewrite IH. reflexivity.
Qed.

Lemma key_set_NoDup (l : list (string * string)) : NoDup (key_set l).
Proof.
  induction l as [|x l IH]; cbn [key_set]; [constructor|].
  destruct (existsb (key_eqb x) l) eqn:Hx; [exact IH|].
  constructor; [|exact IH].
  intros Hin. apply (proj1 (key_set_In _ _)) in Hin.
  apply (proj2 (existsb_key_In _ _)) in Hin. congruence.
Qed.

(** X23: the export reports exactly the new images.  A pair of id and
    display name is in the result if and only if an image listed after the
    export has that pair and no image listed before it has; the result
    holds no pair twice; and it is empty when every image listed after the
    export was already listed before. *)
Theorem X23_export_reports_new_images :
  forall (images_before_export images_after_export : list ContainerImage),
    (forall k,
        In k (new_resources images_before_export images_after_export)
        <-> In k (map image_key images_after_export)
            /\ ~ In k (map image_key images_before_export))
    /\ NoDup (new_resources images_before_export images_after_export)
    /\ ((forall x, In x images_after_export ->
                   In (image_key x) (map image_key images_before_export)) ->
        new_resources images_before_export images_after_export = []).
Proof.
  intros before after.
  assert (Hiff : forall k,
             In k (new_resources before after)
             <-> In k (map image_key after) /\ ~ In k (map image_key before)).
  { intros k. unfold new_resources. rewrite filter_In, key_set_In, negb_true_iff.
    split; intros [Ha Hb]; (split; [exact Ha|]).
    - intros Hin. apply (proj2 (key_set_In _ _)) in Hin.
      apply (proj2 (existsb_key_In _ _)) in Hin. congruence.
    - destruct (existsb (key_eqb k) (key_set (map image_key before))) eqn:Hx;
        [|reflexivity].
      exfalso. apply Hb. apply (proj1 (existsb_key_In _ _)) in Hx.
      apply (proj1 (key_set_In _ _)) in Hx. exact Hx. }
  split; [exact Hiff | split].
  - unfold new_resources. apply NoDup_filter, key_set_NoDup.
  - intros Hall.
    assert (Hnone : forall k, ~ In k (new_resources before after)).
    { intros k Hk. apply (proj1 (Hiff k)) in Hk. destruct Hk as [Ha Hb]. apply Hb.
      apply in_map_iff in Ha. destruct Ha as [x [Hx Hin]]. subst k. now apply Hall. }
    destruct (new_resources before after) as [|k rest]; [reflexivity|].
    exfalso. apply (Hnone k). now left.
Qed.

(** One image is new, one was renamed, one is unchanged. *)
Example export_reports_new_and_renamed :
  new_resources
    [mkImage "img1" "api:1.0"; mkImage "img2" "worker"]
    [mkImage "img1" "api:1.0"; mkImage "img2" "worker:2"; mkImage "img3" "db";
     mkImage "img3" "db"]
  = [("img2", "worker:2"); ("img3", "db")].
Proof. reflexivity. Qed.

(** ** How much a run does *)



Lemma probe_calls_length (E : Env) (name : string) (kwargs : list (string * string))
      (w : World) :
  length (subprocess_calls (log (_check_if_chart_already_exist E name kwargs w))) <= 1.
Proof.
  destruct (probe_calls E name kwargs w) as [H|[ns H]]; rewrite H; simpl; lia.
Qed.

Lemma install_step_calls_length (E : Env) (name chart : string)
      (kwargs : list (string * string)) (w : World) :
  length (subprocess_calls (log (_run_helm_install E name chart kwargs w))) <= 2
  /\ length (install_invocations (log (_run_helm_install E name chart kwargs w))) <= 1.
Proof.
  unfold _run_helm_install. rewrite log_bind.
  assert (Henv : res (_set_kubernete_env w) = Ok tt) by reflexivity.
  rewrite Henv, log_bind.
  rewrite !subprocess_calls_app, !install_invocations_app, !length_app.
  change (subprocess_calls (log (_set_kubernete_env w))) with (@nil (list string)).
  change (install_invocations (log (_set_kubernete_env w)))
    with (@nil (list string * (exn + CompletedProcess))).
  pose proof (probe_calls_length E name kwargs (world (_set_kubernete_env w))) as Hp.
  destruct (probe_log_quiet E name kwargs (world (_set_kubernete_env w))) as [Hi _].
  rewrite Hi.
  destruct (res (_check_if_chart_already_exist E name kwargs _)) as [present| |];
    [ | cbn [length subprocess_calls install_invocations flat_map]; split; lia
      | cbn [length subprocess_calls install_invocations flat_map]; split; lia ].
  unfold subprocess_run. rewrite log_bind. cbn [emit res world log app].
  set (cmd := helm_install_cmd _ name chart kwargs).
  assert (Hl : log (lift_sum (subprocess_result E cmd)
                             (world (_check_if_chart_already_exist E name kwargs
                                       (world (_set_kubernete_env w))))) = [])
    by (destruct (subprocess_result E cmd); reflexivity).
  rewrite Hl. cbn [subprocess_calls install_invocations flat_map app length].
  destruct (is_install_argv cmd); cbn [length app]; split; lia.
Qed.

(** X25: a run does not repeat a command.  It runs at most two
    subprocesses, of which at most one is an install or upgrade, writes the
    values file at most once and removes a file at most once. *)
Theorem X25_run_repeats_no_command :
  forall (E : Env) (w : World),
    length (subprocess_calls (log (_run_with_python E w))) <= 2
    /\ length (install_invocations (log (_run_with_python E w))) <= 1
    /\ length (filter (fun e => match e with EWriteFile _ _ => true | _ => false end)
                      (log (_run_with_python E w))) <= 1
    /\ length (filter (fun e => match e with ERemoveFile _ => true | _ => false end)
                      (log (_run_with_python E w))) <= 1.
Proof.
  intros E w.
  destruct (listing_details_of E) as [b|b h] eqn:Hld.
  { unfold _run_with_python. rewrite Hld. cbn. repeat split; lia. }
  rewrite (run_with_python_helm E w b h Hld). cbv zeta.
  set (inst := _run_helm_install E (helm_app_name h) chart_ref (install_kwargs E h)
                                 (world_with_values E h w)).
  set (del := _delete_temp_file (values_path E) (world inst)).
  set (poll := _wait_for_pod_ready E (namespace h) (helm_app_name h) (world del)).
  destruct (install_step_calls_length E (helm_app_name h) chart_ref (install_kwargs E h)
              (world_with_values E h w)) as [Hc Hi]. fold inst in Hc, Hi.
  set (is_write := fun e => match e with EWriteFile _ _ => true | _ => false end).
  set (is_remove := fun e => match e with ERemoveFile _ => true | _ => false end).
  assert (Hnone : forall (f : event -> bool) l,
             Forall (fun e => f e = false) l -> filter f l = []).
  { intros f l Hl. induction Hl as [|e l He _ IH]; [reflexivity|].
    cbn [filter]. rewrite He. exact IH. }
  assert (Hinst_w : filter is_write (log inst) = []
                    /\ filter is_remove (log inst) = []).
  { split; apply Hnone;
      apply (install_step_emits E (fun e => _ e = false)); intros; reflexivity. }
  assert (Hpoll : subprocess_calls (log poll) = []
                  /\ install_invocations (log poll) = []
                  /\ filter is_write (log poll) = []
                  /\ filter is_remove (log poll) = []).
  { split; [|split; [|split]].
    - apply no_subprocess_calls. apply wait_for_pod_ready_emits; intros; exact I.
    - apply no_install_invocations. apply wait_for_pod_ready_emits; intros; exact I.
    - apply Hnone.
      apply (wait_for_pod_ready_emits E (fun e => is_write e = false));
        intros; reflexivity.
    - apply Hnone.
      apply (wait_for_pod_ready_emits E (fun e => is_remove e = false));
        intros; reflexivity. }
  assert (Hdel : subprocess_calls (log del) = []
                 /\ install_invocations (log del) = []
                 /\ filter is_write (log del) = []
                 /\ length (filter is_remove (log del)) <= 1).
  { unfold del. rewrite delete_temp_file_eq.
    destruct (file_exists (values_path E) (world inst)); cbn; repeat split; lia. }
  destruct Hinst_w as [Hiw Hir]. destruct Hpoll as [Hpc [Hpi [Hpw Hpr]]].
  destruct Hdel as [Hdc [Hdi [Hdw Hdr]]].
  destruct (res inst) as [st| |]; [destruct (returncode st =? 0)%Z| |]; cbn [log];
    rewrite ?subprocess_calls_app, ?install_invocations_app, ?filter_app, ?length_app,
      ?Hiw, ?Hir, ?Hpc, ?Hpi, ?Hpw, ?Hpr, ?Hdc, ?Hdi, ?Hdw;
    cbn [subprocess_calls install_invocations flat_map filter is_write is_remove
         app length];
    repeat split; lia.
Qed.
